(** * ApiTester: a shallow embedding of [src/components/ApiTester.tsx]

    The component keeps eight [useState] cells, sends one HTTP request per
    click through the platform's [fetch], and renders the outcome.  This file
    embeds the handler [makeRequest], the helpers [formatJson] and
    [getStatusColor] and the conditions of the JSX that decide what is
    rendered, and proves properties of them.

    Conventions.
    - A JavaScript string is the list of its UTF-16 code units ([jsstring]).
    - [status] is an integer ([Z]); [timing] is a number ([Number]), which
      can fail to be finite.  A reading of [performance.now()] is given as
      a rational ([Q]) and stands for the double nearest to it; two readings
      are subtracted as IEEE 754 subtracts binary64 numbers
      ([Number_minus]).
    - What belongs to the platform and not to the repository ([JSON.parse],
      the printing of numbers, the text of the errors the platform throws) is
      a [Variable] of the section; the transport's answer and the clock are
      arguments of a run. *)

From Stdlib Require Import List NArith ZArith QArith Qround String Ascii Bool Lia.
From Stdlib Require Import DecimalString.
From Stdlib Require Import SpecFloat Qpower Zpower.
Import ListNotations.

Set Warnings "-register-all".

Local Open Scope N_scope.
Local Open Scope list_scope.

(* ================================================================== *)
(** * JavaScript strings *)

Definition jsstring := list N.

(** A literal: the code units of an ASCII text. *)
Definition js (s : string) : jsstring := map N_of_ascii (list_ascii_of_string s).

(** A literal in which every apostrophe stands for a double quote (U+0022). *)
Definition jsq (s : string) : jsstring :=
  map (fun c => if c =? 39 then 34 else c) (js s).

Definition LF : jsstring := [10].

Fixpoint String_eqb (a b : jsstring) : bool :=
  match a, b with
  | [], [] => true
  | x :: a', y :: b' => (x =? y) && String_eqb a' b'
  | _, _ => false
  end.

(** [s.startsWith(p)] *)
Fixpoint startsWith (s p : jsstring) {struct p} : bool :=
  match p, s with
  | [], _ => true
  | _ :: _, [] => false
  | x :: p', y :: s' => (x =? y) && startsWith s' p'
  end.

(** [s.includes(search)]: [search] occurs at some position of [s]. *)
Fixpoint includes (s search : jsstring) : bool :=
  startsWith s search ||
  match s with
  | [] => false
  | _ :: s' => includes s' search
  end.

(** ECMAScript's WhiteSpace and LineTerminator code points, the ones
    [String.prototype.trim] strips; all of them are single code units. *)
Definition isWhiteSpace (c : N) : bool :=
  (c =? 0x9) || (c =? 0xA) || (c =? 0xB) || (c =? 0xC) || (c =? 0xD) ||
  (c =? 0x20) || (c =? 0xA0) || (c =? 0x1680) ||
  ((0x2000 <=? c) && (c <=? 0x200A)) ||
  (c =? 0x2028) || (c =? 0x2029) || (c =? 0x202F) || (c =? 0x205F) ||
  (c =? 0x3000) || (c =? 0xFEFF).

Fixpoint trimStart (s : jsstring) : jsstring :=
  match s with
  | [] => []
  | c :: s' => if isWhiteSpace c then trimStart s' else s
  end.

Definition trimEnd (s : jsstring) : jsstring := rev (trimStart (rev s)).

(** [s.trim()] *)
Definition trim (s : jsstring) : jsstring := trimEnd (trimStart s).

(** JavaScript truthiness of a string: only the empty string is falsy. *)
Definition truthy (s : jsstring) : bool :=
  match s with [] => false | _ :: _ => true end.

(** Truthiness of a [string | null] cell. *)
Definition truthy_opt (s : option jsstring) : bool :=
  match s with None => false | Some s => truthy s end.

(** A text is blank when nothing is left of it after [trim()], which is how
    the source tests it ([!url.trim()], [requestBody.trim()]). *)
Definition blank (s : jsstring) : bool := negb (truthy (trim s)).

(** Empty or made of white space only. *)
Definition whitespace_only (s : jsstring) : bool := forallb isWhiteSpace s.

(** The decimal text of an integer ([response.status] as a child of the
    badge). *)
Definition Z_toString (z : Z) : jsstring := js (NilZero.string_of_int (Z.to_int z)).

Fixpoint join (sep : jsstring) (parts : list jsstring) : jsstring :=
  match parts with
  | [] => []
  | [p] => p
  | p :: rest => p ++ sep ++ join sep rest
  end.

(* ================================================================== *)
(** * Numbers *)

(** A JavaScript number: a finite value, kept exactly, or one of the three
    values that are not finite. *)
Inductive Number :=
| Finite (q : Q)
| NaN
| Infinity (negative : bool).

(** The integer nearest to a rational, a tie going up. *)
Definition nearestInteger (x : Q) : Z := Qfloor (x + (1 # 2))%Q.

(** [Math.round(x)]: the nearest integer, a tie going up; what is not finite
    is returned as it is. *)
Definition Math_round (x : Number) : Number :=
  match x with
  | Finite q => Finite (inject_Z (nearestInteger q))
  | NaN => NaN
  | Infinity negative => Infinity negative
  end.

(* ================================================================== *)
(** * Doubles

    A JavaScript number is a binary64 floating-point number.  The Standard
    Library's [SpecFloat] has them as data ([spec_float]: a sign, a mantissa
    and an exponent) and their arithmetic as functions, with 53 bits of
    precision and 1024 as the exponent of the infinities. *)

(** The value of a finite double; 0 for an infinity and for NaN, which have
    none. *)
Definition SF2Q (x : spec_float) : Q :=
  match x with
  | S754_finite s m e =>
      let n := if s then Zneg m else Zpos m in
      match e with
      | Z0 => n # 1
      | Zpos p => (n * 2 ^ Zpos p)%Z # 1
      | Zneg p => n # (2 ^ p)%positive
      end
  | _ => 0%Q
  end.

(** The double nearest to a rational, a tie going to the even mantissa: the
    quotient of numerator and denominator, rounded once, as the division of
    [SpecFloat] rounds. *)
Definition toDouble (q : Q) : spec_float :=
  match Qnum q with
  | Z0 => S754_zero false
  | Zpos n =>
      let '(m, e, l) := SFdiv_core_binary 53 1024 (Zpos n) 0 (Zpos (Qden q)) 0 in
      binary_round_aux 53 1024 false m e l
  | Zneg n =>
      let '(m, e, l) := SFdiv_core_binary 53 1024 (Zpos n) 0 (Zpos (Qden q)) 0 in
      binary_round_aux 53 1024 true m e l
  end.

(** A double as a number. *)
Definition fromDouble (x : spec_float) : Number :=
  match x with
  | S754_nan => NaN
  | S754_infinity negative => Infinity negative
  | _ => Finite (SF2Q x)
  end.

(** [x <= y] on numbers. *)
Definition Number_le (x y : Number) : Prop :=
  match x, y with
  | NaN, _ | _, NaN => False
  | Finite a, Finite b => (a <= b)%Q
  | Infinity true, _ | _, Infinity false => True
  | _, _ => False
  end.

(** The number a rational is given for: the double nearest to it, an
    infinity when it is beyond the doubles. *)
Definition asDouble (q : Q) : Number := fromDouble (toDouble q).

(** [x - y] on the numbers [x] and [y] are given for: the IEEE 754
    difference of the two doubles, itself a double. *)
Definition Number_minus (x y : Q) : Number :=
  fromDouble (SFsub 53 1024 (toDouble x) (toDouble y)).

(* ================================================================== *)
(** * JSON quoting (ECMAScript QuoteJSONString) *)

Definition hex_digit (d : N) : N := if d <? 10 then 48 + d else 87 + d.

(** [\uXXXX] with lower-case hexadecimal digits. *)
Definition UnicodeEscape (c : N) : jsstring :=
  [92; 117; hex_digit ((c / 4096) mod 16); hex_digit ((c / 256) mod 16);
   hex_digit ((c / 16) mod 16); hex_digit (c mod 16)].

Definition isLeadingSurrogate (c : N) : bool := (0xD800 <=? c) && (c <=? 0xDBFF).
Definition isTrailingSurrogate (c : N) : bool := (0xDC00 <=? c) && (c <=? 0xDFFF).

(** One code unit that is no surrogate: the two-character escapes of the
    table, [\uXXXX] below U+0020, the unit itself otherwise. *)
Definition escape_unit (c : N) : jsstring :=
  if c =? 0x8 then [92; 98]
  else if c =? 0x9 then [92; 116]
  else if c =? 0xA then [92; 110]
  else if c =? 0xC then [92; 102]
  else if c =? 0xD then [92; 114]
  else if c =? 0x22 then [92; 34]
  else if c =? 0x5C then [92; 92]
  else if c <? 0x20 then UnicodeEscape c
  else [c].

(** The characters between the quotes: a surrogate pair is copied, a lone
    surrogate is escaped. *)
Fixpoint quote_units (s : jsstring) : jsstring :=
  match s with
  | [] => []
  | c :: rest =>
      if isLeadingSurrogate c then
        match rest with
        | d :: rest' =>
            if isTrailingSurrogate d then c :: d :: quote_units rest'
            else UnicodeEscape c ++ quote_units rest
        | [] => UnicodeEscape c
        end
      else if isTrailingSurrogate c then UnicodeEscape c ++ quote_units rest
      else escape_unit c ++ quote_units rest
  end.

Definition QuoteJSONString (s : jsstring) : jsstring := [34] ++ quote_units s ++ [34].

(* ================================================================== *)
(** * [getStatusColor] (lines 139-144) *)

Local Open Scope Z_scope.

Definition getStatusColor (status : Z) : jsstring :=
  if (status >=? 200) && (status <? 300) then js "bg-green-500"
  else if (status >=? 300) && (status <? 400) then js "bg-blue-500"
  else if (status >=? 400) && (status <? 500) then js "bg-yellow-500"
  else js "bg-red-500".

(** The four tiers, by the class each is painted with. *)
Definition success_tier : jsstring := js "bg-green-500".
Definition redirect_tier : jsstring := js "bg-blue-500".
Definition client_error_tier : jsstring := js "bg-yellow-500".
Definition server_error_tier : jsstring := js "bg-red-500".

(* ================================================================== *)
(** * JSON values *)

(** What [JSON.parse] and [res.json()] produce and [JSON.stringify] prints.
    An object is the list of its properties in enumeration order. *)
Inductive JSON :=
| JNull
| JBool (b : bool)
| JNumber (n : Number)
| JString (s : jsstring)
| JArray (items : list JSON)
| JObject (props : list (jsstring * JSON)).

Definition isObject (v : JSON) : bool :=
  match v with JObject _ => true | _ => false end.

(* ================================================================== *)
(** * The data of the component *)

(** [interface ApiResponse] (lines 14-20). *)
Module ApiResponse.
Record t := {
  data : JSON;
  status : Z;
  statusText : jsstring;
  headers : list (jsstring * jsstring);
  timing : Number
}.
End ApiResponse.

(** The [RequestInit] built at lines 59-67; [body] is absent unless line 66
    sets it. *)
Module RequestInit.
Record t := {
  method : jsstring;
  headers : JSON;
  mode : jsstring;
  body : option jsstring
}.
End RequestInit.

(** What [fetch] resolves with.  [headers] is the list that iterating the
    [Headers] object yields (names in lower case, each once).  [body] is
    [None] for a response without a body (a HEAD request, status 204 or 304)
    and the decoded text of the body otherwise. *)
Module Response.
Record t := {
  status : Z;
  statusText : jsstring;
  headers : list (jsstring * jsstring);
  body : option jsstring
}.
End Response.

(** The eight [useState] cells (lines 23-30). *)
Record Component := {
  url : jsstring;
  method : jsstring;
  requestBody : jsstring;
  headers : jsstring;
  loading : bool;
  response : option ApiResponse.t;
  error : option jsstring;
  useCorsProxy : bool
}.

(** The cells as the first render finds them. *)
Definition initial : Component :=
  {| url := []; method := js "GET"; requestBody := [];
     headers := jsq "{'Content-Type': 'application/json'}";
     loading := false; response := None; error := None;
     useCorsProxy := false |}.

Definition setLoading (b : bool) (c : Component) : Component :=
  {| url := url c; method := method c; requestBody := requestBody c;
     headers := headers c; loading := b; response := response c;
     error := error c; useCorsProxy := useCorsProxy c |}.

Definition setResponse (r : option ApiResponse.t) (c : Component) : Component :=
  {| url := url c; method := method c; requestBody := requestBody c;
     headers := headers c; loading := loading c; response := r;
     error := error c; useCorsProxy := useCorsProxy c |}.

Definition setError (e : option jsstring) (c : Component) : Component :=
  {| url := url c; method := method c; requestBody := requestBody c;
     headers := headers c; loading := loading c; response := response c;
     error := e; useCorsProxy := useCorsProxy c |}.

(** The setters of the request form, called by the inputs' [onChange]. *)
Definition setDraft (u m b h : jsstring) (p : bool) (c : Component) : Component :=
  {| url := u; method := m; requestBody := b; headers := h;
     loading := loading c; response := response c; error := error c;
     useCorsProxy := p |}.

(** A value a [catch] clause receives: an instance of [Error] with its
    message, or anything else. *)
Inductive Thrown :=
| ErrorInstance (message : jsstring)
| NotAnError.

(** How the promise of [fetch] settles. *)
Inductive Settlement :=
| Resolves (res : Response.t)
| Rejects (err : Thrown).

(** What a run does to the world outside the cells, in order. *)
Inductive Event :=
| Toast (title description : jsstring) (destructive : bool)
| PerformanceNow (t : Q)
| ConsoleLogUrl (requestUrl : jsstring)
| ConsoleLogOptions (requestOptions : RequestInit.t)
| ConsoleError (err : Thrown)
| Fetch (requestUrl : jsstring) (requestOptions : RequestInit.t)
| ResJson
| ResText.

Definition isToast (e : Event) : bool :=
  match e with Toast _ _ _ => true | _ => false end.

(* ================================================================== *)
(** * The monad of the handler

    A run threads the cells, the number of clock readings made so far, the
    [bodyUsed] flag of the response and the events emitted.  A statement
    either completes normally or throws; what it did before throwing
    stays done. *)

Record Env := {
  hooks : Component;
  reads : nat;
  bodyUsed : bool;
  events : list Event
}.

Inductive Completion (A : Type) :=
| Normal (a : A)
| Throw (err : Thrown).

Arguments Normal {A} a.
Arguments Throw {A} err.

Definition M (A : Type) : Type := Env -> Completion A * Env.

Definition ret {A} (a : A) : M A := fun e => (Normal a, e).

Definition bind {A B} (m : M A) (k : A -> M B) : M B :=
  fun e =>
    match m e with
    | (Normal a, e') => k a e'
    | (Throw err, e') => (Throw err, e')
    end.

Notation "x <- m ;; k" := (bind m (fun x => k))
  (at level 61, m at next level, right associativity).
Notation "m ;;; k" := (bind m (fun _ => k))
  (at level 61, right associativity).

Definition throw {A} (err : Thrown) : M A := fun e => (Throw err, e).

(** [try { body } catch (err) { handler }] *)
Definition tryCatch {A} (body : M A) (handler : Thrown -> M A) : M A :=
  fun e =>
    match body e with
    | (Normal a, e') => (Normal a, e')
    | (Throw err, e') => handler err e'
    end.

(** [try { body } finally { last }] *)
Definition tryFinally {A} (body : M A) (last : M unit) : M A :=
  fun e =>
    match body e with
    | (r, e') =>
        match last e' with
        | (Normal _, e'') => (r, e'')
        | (Throw err, e'') => (Throw err, e'')
        end
    end.

Definition getHooks : M Component := fun e => (Normal (hooks e), e).

Definition update (f : Component -> Component) : M unit :=
  fun e => (Normal tt,
            {| hooks := f (hooks e); reads := reads e;
               bodyUsed := bodyUsed e; events := events e |}).

Definition emit (ev : Event) : M unit :=
  fun e => (Normal tt,
            {| hooks := hooks e; reads := reads e;
               bodyUsed := bodyUsed e; events := events e ++ [ev] |}).

(** [performance.now()]: the next reading of the clock. *)
Definition performance_now (clock : nat -> Q) : M Q :=
  fun e => (Normal (clock (reads e)),
            {| hooks := hooks e; reads := S (reads e);
               bodyUsed := bodyUsed e;
               events := events e ++ [PerformanceNow (clock (reads e))] |}).

Definition toast (title description : jsstring) (destructive : bool) : M unit :=
  emit (Toast title description destructive).

(** [await promise]: the value it resolves with, or its rejection thrown. *)
Definition await (s : Settlement) : M Response.t :=
  match s with
  | Resolves res => ret res
  | Rejects err => throw err
  end.

(** The start of a run on cells [c]. *)
Definition start (c : Component) : Env :=
  {| hooks := c; reads := O; bodyUsed := false; events := [] |}.

(** [headers.get(name)] for a lower-case [name]. *)
Definition Headers_get (hs : list (jsstring * jsstring)) (name : jsstring)
  : option jsstring :=
  option_map snd (find (fun kv => String_eqb (fst kv) name) hs).

(** The decimal value of a text made of digits only. *)
Fixpoint decimalValue (s : jsstring) (acc : N) : option N :=
  match s with
  | [] => Some acc
  | c :: s' =>
      if ((48 <=? c) && (c <=? 57))%N then decimalValue s' (10 * acc + (c - 48))%N
      else None
  end.

(** A property key that is an array index: the canonical decimal text of an
    integer below 2^32 - 1.  An ordinary object lists such keys first, in
    ascending order, and the others after them in the order they were
    created. *)
Definition arrayIndex (key : jsstring) : option N :=
  match key with
  | [] => None
  | [48%N] => Some 0%N
  | 48%N :: _ => None
  | _ =>
      match decimalValue key 0 with
      | Some v => if (v <? 4294967295)%N then Some v else None
      | None => None
      end
  end.

Definition hasOwnProperty (obj : list (jsstring * jsstring)) (key : jsstring) : bool :=
  existsb (fun kv => String_eqb (fst kv) key) obj.

(** A new value for a property the object has; its place is kept. *)
Fixpoint replaceValue (obj : list (jsstring * jsstring)) (key value : jsstring)
  : list (jsstring * jsstring) :=
  match obj with
  | [] => []
  | (k, v) :: rest =>
      if String_eqb k key then (k, value) :: rest
      else (k, v) :: replaceValue rest key value
  end.

(** A new property whose key is the array index [i]: after the array indices
    that are not above [i], before everything else. *)
Fixpoint insertIndex (obj : list (jsstring * jsstring)) (i : N) (key value : jsstring)
  : list (jsstring * jsstring) :=
  match obj with
  | [] => [(key, value)]
  | (k, v) :: rest =>
      match arrayIndex k with
      | Some j =>
          if (i <? j)%N then (key, value) :: (k, v) :: rest
          else (k, v) :: insertIndex rest i key value
      | None => (key, value) :: (k, v) :: rest
      end
  end.

(** [obj[key] = value] on an ordinary object, created by [{}], whose values
    are strings.  The key [__proto__] is the accessor of [Object.prototype]:
    its setter ignores a value that is no object, so the assignment creates
    no property.  Every other key becomes or stays a property of the
    object. *)
Definition setProperty (obj : list (jsstring * jsstring)) (key value : jsstring)
  : list (jsstring * jsstring) :=
  if String_eqb key (js "__proto__") then obj
  else if hasOwnProperty obj key then replaceValue obj key value
  else
    match arrayIndex key with
    | Some i => insertIndex obj i key value
    | None => obj ++ [(key, value)]
    end.

(** Lines 89-92: [res.headers.forEach((value, key) => ...)]. *)
Definition collectHeaders (hs : list (jsstring * jsstring))
  : list (jsstring * jsstring) :=
  fold_left (fun obj kv => setProperty obj (fst kv) (snd kv)) hs [].

(* ================================================================== *)
(** * A platform to run the examples on

    The properties below hold for every [JSON.parse] and every way of
    printing numbers.  The examples need one of each: a parser of the JSON
    grammar (ECMA-404) that builds objects as [JSON.parse] does, and a printer
    that agrees with [Number::toString] on integers below 10^21 and on decimal
    fractions of at most 15 significant digits that are not below 10^-6. *)

Module Browser.

Local Open Scope N_scope.

Definition isJSONWhiteSpace (c : N) : bool :=
  (c =? 0x9) || (c =? 0xA) || (c =? 0xD) || (c =? 0x20).

Fixpoint skipWhiteSpace (s : jsstring) : jsstring :=
  match s with
  | c :: s' => if isJSONWhiteSpace c then skipWhiteSpace s' else s
  | [] => []
  end.

Definition isDigit (c : N) : bool := (48 <=? c) && (c <=? 57).

(** The digits at the head of [s]: their value after [acc], how many they
    are, and what follows them. *)
Fixpoint readDigits (s : jsstring) (acc : N) (count : nat) : N * nat * jsstring :=
  match s with
  | c :: s' =>
      if isDigit c then readDigits s' (10 * acc + (c - 48)) (S count)
      else (acc, count, s)
  | [] => (acc, count, [])
  end.

Definition hexValue (c : N) : option N :=
  if isDigit c then Some (c - 48)
  else if (97 <=? c) && (c <=? 102) then Some (c - 87)
  else if (65 <=? c) && (c <=? 70) then Some (c - 55)
  else None.

(** The characters of a string literal after its opening quote. *)
Fixpoint readString (s : jsstring) (acc : jsstring) : option (jsstring * jsstring) :=
  match s with
  | [] => None
  | 34 :: rest => Some (acc, rest)
  | 92 :: rest =>
      match rest with
      | 117 :: a :: b :: c :: d :: rest' =>
          match hexValue a, hexValue b, hexValue c, hexValue d with
          | Some a, Some b, Some c, Some d =>
              readString rest' (acc ++ [4096 * a + 256 * b + 16 * c + d])
          | _, _, _, _ => None
          end
      | e :: rest' =>
          match (if e =? 34 then Some 34 else if e =? 92 then Some 92
                 else if e =? 47 then Some 47 else if e =? 98 then Some 8
                 else if e =? 102 then Some 12 else if e =? 110 then Some 10
                 else if e =? 114 then Some 13 else if e =? 116 then Some 9
                 else None) with
          | Some u => readString rest' (acc ++ [u])
          | None => None
          end
      | [] => None
      end
  | c :: rest => if c <? 0x20 then None else readString rest (acc ++ [c])
  end.

(** A number literal (an optional minus; zero, or digits that do not start
    with zero; an optional fraction; an optional exponent), read as the
    rational it denotes, also where a double would round it or overflow. *)
Definition readNumber (s : jsstring) : option (Q * jsstring) :=
  let '(negative, s) :=
    match s with 45 :: s' => (true, s') | _ => (false, s) end in
  let whole :=
    match s with
    | 48 :: s' => Some (0, s')
    | c :: _ =>
        if isDigit c then
          let '(v, _, rest) := readDigits s 0 O in Some (v, rest)
        else None
    | [] => None
    end in
  match whole with
  | None => None
  | Some (w, s) =>
      let fraction :=
        match s with
        | 46 :: s' =>
            match readDigits s' 0 O with
            | (_, O, _) => None
            | (f, k, rest) => Some (f, k, rest)
            end
        | _ => Some (0, O, s)
        end in
      match fraction with
      | None => None
      | Some (f, k, s) =>
          let exponent :=
            match s with
            | 69 :: s' | 101 :: s' =>
                let '(minus, s'') :=
                  match s' with
                  | 45 :: t => (true, t)
                  | 43 :: t => (false, t)
                  | _ => (false, s')
                  end in
                match readDigits s'' 0 O with
                | (_, O, _) => None
                | (x, _, rest) =>
                    Some (if minus then (- Z.of_N x)%Z else Z.of_N x, rest)
                end
            | _ => Some (0%Z, s)
            end in
          match exponent with
          | None => None
          | Some (x, rest) =>
              let mantissa := Z.of_N (w * 10 ^ N.of_nat k + f) in
              let mantissa := if negative then (- mantissa)%Z else mantissa in
              let scale := (x - Z.of_nat k)%Z in
              let q :=
                if (0 <=? scale)%Z then (mantissa * 10 ^ scale # 1)%Z
                else (mantissa # Z.to_pos (10 ^ (- scale)))%Z in
              Some (Qred q, rest)
          end
      end
  end.

(** A property key that is an array index: the canonical decimal text of an
    integer below 2^32 - 1. *)
Definition arrayIndex (key : jsstring) : option N :=
  match key with
  | [] => None
  | [48] => Some 0
  | 48 :: _ => None
  | _ =>
      match readDigits key 0 O with
      | (v, _, []) => if v <? 4294967295 then Some v else None
      | _ => None
      end
  end.

(** [obj[key] = value] on an ordinary object: an existing property keeps its
    place; a new array index goes among the array indices, in ascending
    order; any other new key goes last. *)
Fixpoint defineProperty (obj : list (jsstring * JSON)) (key : jsstring) (value : JSON)
  : list (jsstring * JSON) :=
  match obj with
  | [] => [(key, value)]
  | (k, v) :: rest =>
      if String_eqb k key then (k, value) :: rest
      else
        match arrayIndex key, arrayIndex k with
        | Some i, Some j =>
            if i <? j then
              (key, value) :: (k, v) :: filter (fun kv => negb (String_eqb (fst kv) key)) rest
            else (k, v) :: defineProperty rest key value
        | Some _, None =>
            (key, value) :: (k, v) :: filter (fun kv => negb (String_eqb (fst kv) key)) rest
        | None, _ => (k, v) :: defineProperty rest key value
        end
  end.

(** Recursive descent; every call spends one unit of [fuel] and reads at
    least one code unit before it calls again. *)
Fixpoint parseValue (fuel : nat) (s : jsstring) : option (JSON * jsstring) :=
  match fuel with
  | O => None
  | S fuel =>
      match skipWhiteSpace s with
      | [] => None
      | 123 :: rest =>
          match skipWhiteSpace rest with
          | 125 :: rest' => Some (JObject [], rest')
          | _ => parseMembers fuel rest []
          end
      | 91 :: rest =>
          match skipWhiteSpace rest with
          | 93 :: rest' => Some (JArray [], rest')
          | _ => parseElements fuel rest []
          end
      | 34 :: rest =>
          match readString rest [] with
          | Some (text, rest') => Some (JString text, rest')
          | None => None
          end
      | c :: rest =>
          let t := c :: rest in
          if startsWith t (js "null") then Some (JNull, skipn 4 t)
          else if startsWith t (js "true") then Some (JBool true, skipn 4 t)
          else if startsWith t (js "false") then Some (JBool false, skipn 5 t)
          else
            match readNumber t with
            | Some (q, rest') => Some (JNumber (Finite q), rest')
            | None => None
            end
      end
  end
with parseElements (fuel : nat) (s : jsstring) (acc : list JSON)
  : option (JSON * jsstring) :=
  match fuel with
  | O => None
  | S fuel =>
      match parseValue fuel s with
      | Some (v, rest) =>
          match skipWhiteSpace rest with
          | 44 :: rest' => parseElements fuel rest' (acc ++ [v])
          | 93 :: rest' => Some (JArray (acc ++ [v]), rest')
          | _ => None
          end
      | None => None
      end
  end
with parseMembers (fuel : nat) (s : jsstring) (acc : list (jsstring * JSON))
  : option (JSON * jsstring) :=
  match fuel with
  | O => None
  | S fuel =>
      match skipWhiteSpace s with
      | 34 :: rest =>
          match readString rest [] with
          | Some (key, rest') =>
              match skipWhiteSpace rest' with
              | 58 :: rest'' =>
                  match parseValue fuel rest'' with
                  | Some (v, rest3) =>
                      match skipWhiteSpace rest3 with
                      | 44 :: rest4 => parseMembers fuel rest4 (defineProperty acc key v)
                      | 125 :: rest4 => Some (JObject (defineProperty acc key v), rest4)
                      | _ => None
                      end
                  | None => None
                  end
              | _ => None
              end
          | None => None
          end
      | _ => None
      end
  end.

(** [JSON.parse(text)]: one value, with white space around it and nothing
    else. *)
Definition JSON_parse (text : jsstring) : option JSON :=
  match parseValue (2 * List.length text + 2) text with
  | Some (v, rest) =>
      match skipWhiteSpace rest with
      | [] => Some v
      | _ :: _ => None
      end
  | None => None
  end.

(** The fraction digits of [r / d], for [0 <= r < d], to at most [fuel]
    places. *)
Fixpoint fractionDigits (fuel : nat) (r d : N) : jsstring :=
  match fuel with
  | O => []
  | S fuel =>
      if r =? 0 then []
      else (48 + (10 * r) / d) :: fractionDigits fuel ((10 * r) mod d) d
  end.

Definition Number_toString (q : Q) : jsstring :=
  let n := Z.abs_N (Qnum q) in
  let d := Npos (Qden q) in
  (if (Qnum q <? 0)%Z then js "-" else [])
    ++ Z_toString (Z.of_N (n / d))
    ++ match fractionDigits 20 (n mod d) d with
       | [] => []
       | digits => js "." ++ digits
       end.

Definition syntax_error_message : jsstring := js "Unexpected end of JSON input".

Definition body_used_message : jsstring :=
  js "Failed to execute 'text' on 'Response': body stream already read".

End Browser.

(* ================================================================== *)
(** * The scenarios the examples run *)

Module Scenario.

(** The form as filled in for each example. *)
Definition get_ok : Component :=
  setDraft (js "https://example.test/ok") (js "GET") []
    (jsq "{'Content-Type': 'application/json'}") false initial.

Definition post_create : Component :=
  setDraft (js "https://example.test/create") (js "POST") (jsq "{'x':1}")
    (js "not-json") false initial.

Definition head_with_body : Component :=
  setDraft (js "https://example.test/ok") (js "HEAD") (jsq "{'x':1}")
    (jsq "{'Content-Type': 'application/json'}") false initial.

Definition array_headers : Component :=
  setDraft (js "https://example.test/ok") (js "GET") [] (js "[1, 2]") false initial.

Definition blank_url : Component :=
  setDraft (js "   ") (js "POST") (jsq "{'x':1}")
    (jsq "{'Content-Type': 'application/json'}") false initial.

(** What the transport answers. *)
Definition ok_response : Response.t :=
  {| Response.status := 200; Response.statusText := js "OK";
     Response.headers := [(js "content-type", js "application/json")];
     Response.body := Some (jsq "{'a':1}") |}.

Definition created_response : Response.t :=
  {| Response.status := 201; Response.statusText := js "Created";
     Response.headers := [(js "content-type", js "application/json")];
     Response.body := Some (jsq "{'id':7}") |}.

(** A page of HTML served as [application/json]. *)
Definition html_as_json : Response.t :=
  {| Response.status := 200; Response.statusText := js "OK";
     Response.headers := [(js "content-type", js "application/json")];
     Response.body := Some (js "<html>oops</html>") |}.

Definition failed_to_fetch : Thrown := ErrorInstance (js "Failed to fetch").

(** A transport that gives the same answer to every request. *)
Definition answers (outcome : Settlement) : jsstring -> RequestInit.t -> Settlement :=
  fun _ _ => outcome.

(** A clock that reads 1000 ms, then 1012.6 ms, and so on. *)
Definition clock (n : nat) : Q := (1000 + (63 # 5) * inject_Z (Z.of_nat n))%Q.

(** The same clock once its first reading has been made. *)
Definition later (n : nat) : Q := clock (S n).

End Scenario.

(* ================================================================== *)
(** * More answers of the transport *)

Module Answers.

(** A 404 with a page of text. *)
Definition not_found : Response.t :=
  {| Response.status := 404; Response.statusText := js "Not Found";
     Response.headers := [(js "content-type", js "text/plain")];
     Response.body := Some (js "no such") |}.

(** Two lines of text. *)
Definition two_lines : Response.t :=
  {| Response.status := 200; Response.statusText := js "OK";
     Response.headers := [(js "content-type", js "text/plain")];
     Response.body := Some (js "first" ++ LF ++ js "second") |}.

(** A 204 that declares JSON and has no body. *)
Definition no_content : Response.t :=
  {| Response.status := 204; Response.statusText := js "No Content";
     Response.headers := [(js "content-type", js "application/json")];
     Response.body := None |}.

(** An error that names neither CORS nor fetch. *)
Definition network_down : jsstring := js "NetworkError when attempting to load resource.".

(** The headers of an answer, as the iteration yields them. *)
Definition two_headers : list (jsstring * jsstring) :=
  [(js "content-type", js "text/plain"); (js "x-request-id", js "7")].

End Answers.

(* ================================================================== *)
(** * The handler, the formatter and the rendering conditions *)

Section Platform.

(** [Number::toString] on a finite number. *)
Variable Number_toString : Q -> jsstring.

(** [JSON.parse(text)]: the value, or [None] when it throws a SyntaxError. *)
Variable JSON_parse : jsstring -> option JSON.

(** The message of the SyntaxError that [res.json()] rejects with, and of the
    TypeError that reading a body a second time rejects with. *)
Variable syntax_error_message : jsstring.
Variable body_used_message : jsstring.

(** [Number::toString]: the text of a number in a template literal
    ([`${timing}`]) and as a child of an element ([{response.timing}]). *)
Definition Number_toText (x : Number) : jsstring :=
  match x with
  | Finite q => Number_toString q
  | NaN => js "NaN"
  | Infinity false => js "Infinity"
  | Infinity true => js "-Infinity"
  end.

(** ** [JSON.stringify(value, null, space)] *)

(** The last step of SerializeJSONObject and SerializeJSONArray. *)
Definition enclose (opening closing gap indent stepback : jsstring)
  (partial : list jsstring) : jsstring :=
  match partial with
  | [] => opening ++ closing
  | _ :: _ =>
      if truthy gap then
        opening ++ LF ++ indent ++ join (js "," ++ LF ++ indent) partial
          ++ LF ++ stepback ++ closing
      else opening ++ join (js ",") partial ++ closing
  end.

Fixpoint SerializeJSONProperty (gap indent : jsstring) (v : JSON) {struct v}
  : jsstring :=
  match v with
  | JNull => js "null"
  | JBool true => js "true"
  | JBool false => js "false"
  | JNumber (Finite q) => Number_toString q
  | JNumber _ => js "null"
  | JString s => QuoteJSONString s
  | JArray items =>
      enclose (js "[") (js "]") gap (indent ++ gap) indent
        (map (SerializeJSONProperty gap (indent ++ gap)) items)
  | JObject props =>
      enclose (js "{") (js "}") gap (indent ++ gap) indent
        (map (fun kv =>
                QuoteJSONString (fst kv) ++ js ":"
                  ++ (if truthy gap then js " " else [])
                  ++ SerializeJSONProperty gap (indent ++ gap) (snd kv))
             props)
  end.

Definition JSON_stringify (value : JSON) (space : nat) : jsstring :=
  SerializeJSONProperty (repeat 32%N (Nat.min 10 space)) [] value.

(** ** [formatJson] (lines 131-137)

    [JSON.stringify] throws on a cyclic object or a BigInt only, and no value
    of [JSON] is one: the [catch] branch ([String(obj)]) is never taken on
    what the component passes. *)
Definition formatJson (obj : JSON) : jsstring := JSON_stringify obj 2.

(** A [Record<string, string>] as the object [formatJson] receives. *)
Definition recordToJSON (r : list (jsstring * jsstring)) : JSON :=
  JObject (map (fun kv => (fst kv, JString (snd kv))) r).

(** ** Reading the body of a response

    Fetch's "consume body": a body that was read once is unusable, and reading
    it again rejects with a TypeError; a response without a body reads as the
    empty text every time.  [res.json()] consumes the body, then parses it. *)

Definition res_text (res : Response.t) : M jsstring :=
  fun e =>
    let e := {| hooks := hooks e; reads := reads e; bodyUsed := bodyUsed e;
                events := events e ++ [ResText] |} in
    match Response.body res with
    | None => (Normal [], e)
    | Some text =>
        if bodyUsed e then (Throw (ErrorInstance body_used_message), e)
        else (Normal text,
              {| hooks := hooks e; reads := reads e; bodyUsed := true;
                 events := events e |})
    end.

Definition res_json (res : Response.t) : M JSON :=
  fun e =>
    let e := {| hooks := hooks e; reads := reads e; bodyUsed := bodyUsed e;
                events := events e ++ [ResJson] |} in
    match Response.body res with
    | None =>
        match JSON_parse [] with
        | Some v => (Normal v, e)
        | None => (Throw (ErrorInstance syntax_error_message), e)
        end
    | Some text =>
        if bodyUsed e then (Throw (ErrorInstance body_used_message), e)
        else
          let e := {| hooks := hooks e; reads := reads e; bodyUsed := true;
                      events := events e |} in
          match JSON_parse text with
          | Some v => (Normal v, e)
          | None => (Throw (ErrorInstance syntax_error_message), e)
          end
    end.

(** ** [makeRequest] (lines 32-129) *)

Definition cors_prefix : jsstring := js "CORS Error: ".
Definition remediation_suffix : jsstring :=
  js ". Try enabling CORS proxy or configure the server to allow cross-origin requests.".

(** Lines 47-52. *)
Definition parsedHeaders (c : Component) : JSON :=
  match JSON_parse (headers c) with
  | Some v => v
  | None => JObject []
  end.

(** Lines 55-57. *)
Definition requestUrl (c : Component) : jsstring :=
  if useCorsProxy c then js "https://cors-anywhere.herokuapp.com/" ++ url c
  else url c.

(** Lines 59-67. *)
Definition requestOptions (c : Component) : RequestInit.t :=
  let options :=
    {| RequestInit.method := method c;
       RequestInit.headers := parsedHeaders c;
       RequestInit.mode := if useCorsProxy c then js "cors" else js "cors";
       RequestInit.body := None |} in
  if negb (String_eqb (method c) (js "GET"))
     && negb (String_eqb (method c) (js "HEAD"))
     && truthy (trim (requestBody c))
  then {| RequestInit.method := RequestInit.method options;
          RequestInit.headers := RequestInit.headers options;
          RequestInit.mode := RequestInit.mode options;
          RequestInit.body := Some (requestBody c) |}
  else options.

(** Lines 33-72, up to the call of [fetch]: what runs before the handler is
    suspended.  [c] is the render's closure, the cells as they were when the
    handler was created.  The result is [None] after the early [return], and
    the start time otherwise.  Nothing in this part throws ([JSON.parse] has
    its own [catch]), so the [try] that opens at line 46 is left to
    [makeRequest_settle]. *)
Definition makeRequest_begin (clock : nat -> Q) : M (option Q) :=
  c <- getHooks ;;
  if negb (truthy (trim (url c))) then
    toast (js "Error") (js "Please enter a valid URL") true ;;;
    ret None
  else
    update (setLoading true) ;;;
    update (setError None) ;;;
    startTime <- performance_now clock ;;
    emit (ConsoleLogUrl (requestUrl c)) ;;;
    emit (ConsoleLogOptions (requestOptions c)) ;;;
    emit (Fetch (requestUrl c) (requestOptions c)) ;;;
    ret (Some startTime).

(** Lines 111-116. *)
Definition errorMessage (err : Thrown) : jsstring :=
  let errorMessage :=
    match err with
    | ErrorInstance message => message
    | NotAnError => js "Unknown error occurred"
    end in
  if includes errorMessage (js "CORS") || includes errorMessage (js "fetch")
  then cors_prefix ++ errorMessage ++ remediation_suffix
  else errorMessage.

(** Line 79: [contentType && contentType.includes('application/json')]. *)
Definition declaresJSON (res : Response.t) : bool :=
  match Headers_get (Response.headers res) (js "content-type") with
  | Some contentType => truthy contentType && includes contentType (js "application/json")
  | None => false
  end.

(** Lines 76-87. *)
Definition responseData (res : Response.t) : M JSON :=
  if declaresJSON res
  then tryCatch (res_json res) (fun _ => text <- res_text res ;; ret (JString text))
  else text <- res_text res ;; ret (JString text).

(** Lines 72-128, from the moment the promise of [fetch] settles. *)
Definition makeRequest_settle (clock : nat -> Q) (startTime : Q)
  (outcome : Settlement) : M unit :=
  tryFinally
    (tryCatch
       (res <- await outcome ;;
        endTime <- performance_now clock ;;
        let timing := Math_round (Number_minus endTime startTime) in
        data <- responseData res ;;
        let responseHeaders := collectHeaders (Response.headers res) in
        update (setResponse (Some
          {| ApiResponse.data := data;
             ApiResponse.status := Response.status res;
             ApiResponse.statusText := Response.statusText res;
             ApiResponse.headers := responseHeaders;
             ApiResponse.timing := timing |})) ;;;
        toast (js "Request Completed")
              (js "Response received in " ++ Number_toText timing ++ js "ms") false)
       (fun err =>
        endTime <- performance_now clock ;;
        let timing := Math_round (Number_minus endTime startTime) in
        emit (ConsoleError err) ;;;
        update (setError (Some (errorMessage err))) ;;;
        toast (js "Request Failed") (errorMessage err) true))
    (update (setLoading false)).

(** One whole run against a transport that answers at once. *)
Definition makeRequest (clock : nat -> Q)
  (fetch : jsstring -> RequestInit.t -> Settlement) : M unit :=
  c <- getHooks ;;
  started <- makeRequest_begin clock ;;
  match started with
  | None => ret tt
  | Some startTime =>
      makeRequest_settle clock startTime (fetch (requestUrl c) (requestOptions c))
  end.

(** The requests a run handed to the transport. *)
Definition sent (evs : list Event) : list (jsstring * RequestInit.t) :=
  flat_map (fun ev => match ev with Fetch u o => [(u, o)] | _ => [] end) evs.

(** ** What the JSX renders (lines 146-361) *)

Inductive Icon := CheckCircle | XCircle | NoIcon.

Record View := {
  (** line 251 *)
  sendDisabled : bool;
  (** line 232 *)
  bodyInputShown : bool;
  (** lines 275-281 *)
  headerIcon : Icon;
  (** lines 284-294: the class and the text of the status badge, and the text
      of the timing badge *)
  badges : option (jsstring * jsstring * jsstring);
  (** lines 298-303 *)
  spinner : bool;
  (** lines 305-324: the message, and whether the checklist is under it *)
  errorBanner : option (jsstring * bool);
  (** lines 326-349: the texts of the body tab and of the headers tab *)
  responseTabs : option (jsstring * jsstring);
  (** lines 351-356 *)
  placeholder : bool
}.

Definition render (c : Component) : View :=
  {| sendDisabled := loading c || negb (truthy (trim (url c)));
     bodyInputShown :=
       negb (String_eqb (method c) (js "GET"))
       && negb (String_eqb (method c) (js "HEAD"));
     headerIcon :=
       match response c with
       | Some _ => CheckCircle
       | None => if truthy_opt (error c) then XCircle else NoIcon
       end;
     badges :=
       match response c with
       | Some r =>
           Some (getStatusColor (ApiResponse.status r) ++ js " text-white",
                 Z_toString (ApiResponse.status r) ++ js " " ++ ApiResponse.statusText r,
                 Number_toText (ApiResponse.timing r) ++ js "ms")
       | None => None
       end;
     spinner := loading c;
     errorBanner :=
       match error c with
       | Some msg => if truthy msg then Some (msg, includes msg (js "CORS")) else None
       | None => None
       end;
     responseTabs :=
       match response c with
       | Some r =>
           if negb (loading c) && negb (truthy_opt (error c))
           then Some (formatJson (ApiResponse.data r),
                      formatJson (recordToJSON (ApiResponse.headers r)))
           else None
       | None => None
       end;
     placeholder :=
       match response c with
       | Some _ => false
       | None => negb (loading c) && negb (truthy_opt (error c))
       end |}.

(** The four contents of the response card, in the order of the JSX. *)
Inductive Panel :=
| Pending
| Failed (message : jsstring)
| Succeeded (body : jsstring)
| Empty.

Definition panels (v : View) : list Panel :=
  (if spinner v then [Pending] else [])
  ++ match errorBanner v with Some (msg, _) => [Failed msg] | None => [] end
  ++ match responseTabs v with Some (b, _) => [Succeeded b] | None => [] end
  ++ (if placeholder v then [Empty] else []).

(** ** Names for the parts of a run *)

(** The text [res.text()] gives for a body that was not read before. *)
Definition bodyText (res : Response.t) : jsstring :=
  match Response.body res with Some text => text | None => [] end.

(** Whether the response has a body to consume. *)
Definition hasBody (res : Response.t) : bool :=
  match Response.body res with Some _ => true | None => false end.

(** [e] after more events, with its body flag set to [used]. *)
Definition withEvents (e : Env) (used : bool) (evs : list Event) : Env :=
  {| hooks := hooks e; reads := reads e; bodyUsed := used;
     events := events e ++ evs |}.

(** The environment after a reading of the clock. *)
Definition afterNow (clock : nat -> Q) (e : Env) : Env :=
  {| hooks := hooks e; reads := S (reads e); bodyUsed := bodyUsed e;
     events := events e ++ [PerformanceNow (clock (reads e))] |}.

(** The environment after the [catch] block and the [finally] block. *)
Definition failedEnv (clock : nat -> Q) (err : Thrown) (e : Env) : Env :=
  {| hooks := setLoading false (setError (Some (errorMessage err)) (hooks e));
     reads := S (reads e); bodyUsed := bodyUsed e;
     events := events e ++ [PerformanceNow (clock (reads e)); ConsoleError err;
                            Toast (js "Request Failed") (errorMessage err) true] |}.

(** The response line 94 stores. *)
Definition stored (clock : nat -> Q) (startTime : Q) (res : Response.t)
  (d : JSON) (e : Env) : ApiResponse.t :=
  {| ApiResponse.data := d;
     ApiResponse.status := Response.status res;
     ApiResponse.statusText := Response.statusText res;
     ApiResponse.headers := collectHeaders (Response.headers res);
     ApiResponse.timing := Math_round (Number_minus (clock (reads e)) startTime) |}.

(** What lines 76-87 make of the body when they do not throw: the text, for
    a response that does not declare JSON; the value decoded, for one that
    does; the empty text, for one that declares JSON and has no body to
    decode.  [None] is the case in which they throw. *)
Definition decoded (res : Response.t) : option JSON :=
  if declaresJSON res then
    match Response.body res with
    | Some text => JSON_parse text
    | None =>
        match JSON_parse [] with
        | Some v => Some v
        | None => Some (JString [])
        end
    end
  else Some (JString (bodyText res)).

(** The cells after a click has run the handler up to [fetch], and after the
    request in flight has settled. *)
Definition clicked (clock : nat -> Q) (c : Component) : Component :=
  hooks (snd (makeRequest_begin clock (start c))).

Definition settled (clock : nat -> Q) (startTime : Q) (outcome : Settlement)
  (c : Component) : Component :=
  hooks (snd (makeRequest_settle clock startTime outcome (start c))).

(** ** The life of the component

    The cells change when the user edits the form, when a click on the
    enabled button runs the handler up to [fetch], and when the request in
    flight settles.  The updates one synchronous stretch of the handler makes
    are committed together, so these are the states a render sees. *)
Inductive step : Component -> Component -> Prop :=
| step_edit (u m b h : jsstring) (p : bool) (c : Component) :
    step c (setDraft u m b h p c)
| step_click (clock : nat -> Q) (c : Component) :
    sendDisabled (render c) = false ->
    step c (clicked clock c)
| step_settle (clock : nat -> Q) (startTime : Q) (outcome : Settlement)
    (c : Component) :
    loading c = true ->
    step c (settled clock startTime outcome c).

Inductive reachable : Component -> Prop :=
| reach_initial : reachable initial
| reach_step (c c' : Component) : reachable c -> step c c' -> reachable c'.

(** What the user and the transport did, latest first, to bring the component
    from its first render to a state: the same three steps as [step], each
    with its name. *)
Inductive Action := Edited | Clicked | Settled.

Inductive history : list Action -> Component -> Prop :=
| history_initial : history [] initial
| history_edit (acts : list Action) (u m b h : jsstring) (p : bool) (c : Component) :
    history acts c -> history (Edited :: acts) (setDraft u m b h p c)
| history_click (acts : list Action) (clock : nat -> Q) (c : Component) :
    history acts c -> sendDisabled (render c) = false ->
    history (Clicked :: acts) (clicked clock c)
| history_settle (acts : list Action) (clock : nat -> Q) (startTime : Q)
    (outcome : Settlement) (c : Component) :
    history acts c -> loading c = true ->
    history (Settled :: acts) (settled clock startTime outcome c).

Definition isClicked (a : Action) : bool :=
  match a with Clicked => true | _ => false end.

Definition isSettled (a : Action) : bool :=
  match a with Settled => true | _ => false end.

(** The requests sent and not yet settled. *)
Definition inFlight (acts : list Action) : Z :=
  Z.of_nat (List.length (filter isClicked acts))
  - Z.of_nat (List.length (filter isSettled acts)).

(* ================================================================== *)
(** * Properties *)

(** ** Strings *)

Lemma String_eqb_eq (a b : jsstring) : String_eqb a b = true <-> a = b.
Proof.
  revert b; induction a as [|x a IH]; intros [|y b]; simpl; split;
    try (intros; congruence); try reflexivity.
  - rewrite andb_true_iff, N.eqb_eq, IH. intros [-> ->]. reflexivity.
  - intros H; injection H as -> ->. rewrite N.eqb_refl.
    apply IH. reflexivity.
Qed.

Lemma String_eqb_neq (a b : jsstring) : String_eqb a b = false <-> a <> b.
Proof.
  rewrite <- String_eqb_eq. destruct (String_eqb a b); split; congruence.
Qed.

Lemma startsWith_app (p rest : jsstring) : startsWith (p ++ rest) p = true.
Proof.
  induction p as [|x p IH]; simpl.
  - reflexivity.
  - rewrite N.eqb_refl. exact IH.
Qed.

Lemma includes_skip (before s search : jsstring) :
  includes s search = true -> includes (before ++ s) search = true.
Proof.
  intros H. induction before as [|x before IH]; simpl.
  - exact H.
  - rewrite IH. apply orb_true_r.
Qed.

(** A text includes each of its own segments. *)
Lemma includes_segment (before search after : jsstring) :
  includes (before ++ search ++ after) search = true.
Proof.
  apply includes_skip.
  destruct (search ++ after) eqn:E; simpl; rewrite <- E;
    rewrite startsWith_app; reflexivity.
Qed.

Lemma trimStart_nil (s : jsstring) : trimStart s = [] <-> whitespace_only s = true.
Proof.
  unfold whitespace_only. induction s as [|c s IH]; simpl.
  - tauto.
  - destruct (isWhiteSpace c); simpl; [exact IH|]. split; congruence.
Qed.

(** What [trimStart] leaves does not start with white space. *)
Lemma trimStart_head (s : jsstring) (c : N) (rest : jsstring) :
  trimStart s = c :: rest -> isWhiteSpace c = false.
Proof.
  induction s as [|x s IH]; simpl; [congruence|].
  destruct (isWhiteSpace x) eqn:E; [exact IH|].
  intros H; injection H as -> _. exact E.
Qed.

Lemma whitespace_only_rev (s : jsstring) :
  whitespace_only (rev s) = whitespace_only s.
Proof.
  unfold whitespace_only. induction s as [|c s IH]; simpl; [reflexivity|].
  rewrite forallb_app, IH. simpl. rewrite andb_true_r. apply andb_comm.
Qed.

(** [trim] leaves nothing exactly of the texts that are empty or made of
    white space only. *)
Lemma blank_iff_whitespace_only (s : jsstring) :
  blank s = true <-> whitespace_only s = true.
Proof.
  unfold blank, trim, trimEnd. split.
  - intros H. destruct (rev (trimStart (rev (trimStart s)))) eqn:E;
      [clear H | discriminate H].
    apply (f_equal (@rev N)) in E. rewrite rev_involutive in E. simpl in E.
    apply trimStart_nil in E. rewrite whitespace_only_rev in E.
    destruct (trimStart s) as [|c rest] eqn:Es.
    + apply trimStart_nil. exact Es.
    + apply trimStart_head in Es. unfold whitespace_only in E. simpl in E.
      rewrite Es in E. discriminate E.
  - intros H. apply trimStart_nil in H. rewrite H. reflexivity.
Qed.

(** ** Rounding *)

Lemma nearestInteger_nonneg (x : Q) : (0 <= x)%Q -> 0 <= nearestInteger x.
Proof.
  intros H. unfold nearestInteger.
  change 0 with (Qfloor 0). apply Qfloor_resp_le.
  apply Qle_trans with x; [exact H|].
  rewrite <- (Qplus_0_r x) at 1. apply Qplus_le_r. discriminate.
Qed.

(** [nearestInteger x] is within one half of [x]. *)
Lemma nearestInteger_nearest (x : Q) :
  (inject_Z (nearestInteger x) - (1 # 2) <= x
   < inject_Z (nearestInteger x) + (1 # 2))%Q.
Proof.
  unfold nearestInteger. split.
  - apply Qplus_le_l with (z := (1 # 2)%Q).
    setoid_replace (inject_Z (Qfloor (x + (1 # 2))) - (1 # 2) + (1 # 2))%Q
      with (inject_Z (Qfloor (x + (1 # 2)))) by ring.
    apply Qfloor_le.
  - apply Qplus_lt_l with (z := (1 # 2)%Q).
    setoid_replace (inject_Z (Qfloor (x + (1 # 2))) + (1 # 2) + (1 # 2))%Q
      with (inject_Z (Qfloor (x + (1 # 2)) + 1)) by (rewrite inject_Z_plus; ring).
    apply Qlt_floor.
Qed.

(** ** Doubles *)

(** The value of a finite double is its signed mantissa times a power of
    two. *)
Lemma SF2Q_finite (s : bool) (m : positive) (e : Z) :
  (SF2Q (S754_finite s m e) == inject_Z (cond_Zopp s (Zpos m)) * 2 ^ e)%Q.
Proof.
  assert (N : (if s then Zneg m else Zpos m) = cond_Zopp s (Zpos m))
    by (destruct s; reflexivity).
  unfold SF2Q. rewrite N. set (n := cond_Zopp s (Zpos m)).
  destruct e as [|p|p].
  - change (2 ^ 0)%Q with 1%Q. rewrite Qmult_1_r. reflexivity.
  - rewrite <- (Zpower_Qpower 2 (Zpos p)) by lia.
    rewrite <- inject_Z_mult. reflexivity.
  - change (2 ^ Zneg p)%Q with (/ (2 ^ Zpos p))%Q.
    rewrite <- (Zpower_Qpower 2 (Zpos p)) by lia.
    rewrite Qmake_Qdiv. rewrite Pos2Z.inj_pow. reflexivity.
Qed.

Lemma pow2_pos (e : Z) : (0 < 2 ^ e)%Q.
Proof. apply Qpower_0_lt. reflexivity. Qed.

(** Aligning a mantissa to a smaller exponent keeps the value. *)
Lemma shl_align_value (m : positive) (e ez : Z) :
  ez <= e ->
  Zpos (fst (shl_align m e ez)) = Zpos m * 2 ^ (e - ez).
Proof.
  intros L. unfold shl_align.
  destruct (ez - e) as [|d|d] eqn:D.
  - replace (e - ez) with 0 by lia. simpl. lia.
  - lia.
  - simpl fst. change (Pos.iter xO m d) with (shift_pos d m).
    rewrite shift_pos_correct. replace (e - ez) with (Zpos d) by lia.
    rewrite Z.mul_comm. reflexivity.
Qed.

Lemma SF2Q_aligned (s : bool) (m : positive) (e ez : Z) :
  ez <= e ->
  (SF2Q (S754_finite s m e)
   == inject_Z (cond_Zopp s (Zpos (fst (shl_align m e ez)))) * 2 ^ ez)%Q.
Proof.
  intros L. rewrite SF2Q_finite, (shl_align_value m e ez L).
  replace (cond_Zopp s (Zpos m * 2 ^ (e - ez)))
    with (cond_Zopp s (Zpos m) * 2 ^ (e - ez))
    by (destruct s; unfold cond_Zopp; ring).
  rewrite inject_Z_mult, (Zpower_Qpower 2 (e - ez)) by lia.
  rewrite <- Qmult_assoc, <- Qpower_plus by discriminate.
  replace (e - ez + ez) with e by lia. reflexivity.
Qed.

Lemma SF2Q_positive_finite (m : positive) (e : Z) :
  (0 < SF2Q (S754_finite false m e))%Q.
Proof.
  rewrite SF2Q_finite. simpl cond_Zopp.
  apply Qmult_lt_0_compat; [reflexivity|apply pow2_pos].
Qed.

Lemma SF2Q_negative_finite (m : positive) (e : Z) :
  (SF2Q (S754_finite true m e) < 0)%Q.
Proof.
  rewrite SF2Q_finite. simpl cond_Zopp.
  setoid_replace (inject_Z (Zneg m) * 2 ^ e)%Q
    with (- (inject_Z (Zpos m) * 2 ^ e))%Q
    by (change (Zneg m) with (- Zpos m); rewrite inject_Z_opp; ring).
  apply (Qopp_lt_compat 0). apply Qmult_lt_0_compat; [reflexivity|apply pow2_pos].
Qed.

(** Rounding gives a double of the sign it is asked for. *)
Lemma binary_round_aux_nonneg (m e : Z) (l : location) :
  (0 <= SF2Q (binary_round_aux 53 1024 false m e l))%Q.
Proof.
  unfold binary_round_aux.
  destruct (shr_fexp 53 1024 m e l) as [mrs' e'].
  destruct (shr_fexp 53 1024 _ e' loc_Exact) as [mrs'' e''].
  destruct (shr_m mrs'') as [|p|p]; try apply Qle_refl.
  destruct (e'' <=? 1024 - 53); [|apply Qle_refl].
  apply Qlt_le_weak. apply SF2Q_positive_finite.
Qed.

Lemma binary_normalize_nonneg (d ez : Z) :
  0 <= d -> (0 <= SF2Q (binary_normalize 53 1024 d ez false))%Q.
Proof.
  intros D. destruct d as [|p|p]; [apply Qle_refl| |lia].
  unfold binary_normalize, binary_round.
  destruct (shl_align p ez _) as [mz ez'].
  apply binary_round_aux_nonneg.
Qed.

(** The IEEE difference of a double and one that is not above it is not
    negative. *)
Lemma SFsub_nonneg (x y : spec_float) :
  (SF2Q y <= SF2Q x)%Q -> (0 <= SF2Q (SFsub 53 1024 x y))%Q.
Proof.
  intros L.
  destruct x as [sx|sx| |sx mx ex], y as [sy|sy| |sy my ey];
    try (simpl; destruct sx; try destruct sy; apply Qle_refl);
    try (simpl; apply Qle_refl).
  - (* 0 - y *)
    destruct sy.
    + simpl SFsub. apply Qlt_le_weak. apply SF2Q_positive_finite.
    + exfalso. apply (Qlt_not_le _ _ (SF2Q_positive_finite my ey)). exact L.
  - (* x - 0 *)
    exact L.
  - (* both finite *)
    unfold SFsub. apply binary_normalize_nonneg.
    set (ez := Z.min ex ey).
    rewrite (SF2Q_aligned sx mx ex ez) in L by (unfold ez; lia).
    rewrite (SF2Q_aligned sy my ey ez) in L by (unfold ez; lia).
    apply Qmult_le_r in L; [|apply pow2_pos].
    rewrite <- Zle_Qle in L. lia.
Qed.

(** A difference is finite only when both numbers are. *)
Lemma SFsub_finite (x y : spec_float) (q : Q) :
  fromDouble (SFsub 53 1024 x y) = Finite q ->
  fromDouble x = Finite (SF2Q x) /\ fromDouble y = Finite (SF2Q y) /\
  q = SF2Q (SFsub 53 1024 x y).
Proof.
  intros E.
  assert (V : q = SF2Q (SFsub 53 1024 x y)).
  { destruct (SFsub 53 1024 x y); simpl in E; try discriminate E;
      injection E as <-; reflexivity. }
  destruct x as [sx|sx| |sx mx ex], y as [sy|sy| |sy my ey];
    try (split; [reflexivity|split; [reflexivity|exact V]]);
    exfalso; clear V; cbn in E; try discriminate E;
    destruct sx, sy; cbn in E; discriminate E.
Qed.

(** The difference of a number and one that is not above it is not negative,
    when it is finite. *)
Lemma Number_minus_nonneg (x y q : Q) :
  Number_le (asDouble y) (asDouble x) -> Number_minus x y = Finite q -> (0 <= q)%Q.
Proof.
  unfold asDouble, Number_minus. intros L E.
  destruct (SFsub_finite _ _ _ E) as (Fx & Fy & ->).
  rewrite Fx, Fy in L. apply SFsub_nonneg. exact L.
Qed.

(** ** The status tiers *)

(** C7.  [getStatusColor] paints every status in 200..299 as success, in
    300..399 as redirect, in 400..499 as client error, and every other status
    as server error, the default; so 200, 301, 404, 500 and 999 are success,
    redirect, client error, server error and server error. *)
Theorem status_tiers (status : Z) :
  (200 <= status < 300 -> getStatusColor status = success_tier) /\
  (300 <= status < 400 -> getStatusColor status = redirect_tier) /\
  (400 <= status < 500 -> getStatusColor status = client_error_tier) /\
  (status < 200 \/ 500 <= status -> getStatusColor status = server_error_tier) /\
  getStatusColor 200 = success_tier /\
  getStatusColor 301 = redirect_tier /\
  getStatusColor 404 = client_error_tier /\
  getStatusColor 500 = server_error_tier /\
  getStatusColor 999 = server_error_tier.
Proof.
  unfold getStatusColor, success_tier, redirect_tier, client_error_tier,
    server_error_tier.
  repeat split; try reflexivity; intros H;
    destruct (status >=? 200) eqn:E2; destruct (status <? 300) eqn:E3;
    destruct (status >=? 300) eqn:E3'; destruct (status <? 400) eqn:E4;
    destruct (status >=? 400) eqn:E4'; destruct (status <? 500) eqn:E5;
    simpl; try reflexivity; exfalso;
    rewrite ?Z.geb_le, ?Z.ltb_lt, ?Z.ltb_ge in *;
    repeat match goal with
           | G : (_ >=? _) = false |- _ =>
               apply (proj1 (not_true_iff_false _)) in G; rewrite Z.geb_le in G
           end; lia.
Qed.

(** ** The handler up to the call of [fetch] *)

Lemma makeRequest_begin_blocked (clock : nat -> Q) (c : Component) :
  blank (url c) = true ->
  makeRequest_begin clock (start c) =
    (Normal None,
     {| hooks := c; reads := O; bodyUsed := false;
        events := [Toast (js "Error") (js "Please enter a valid URL") true] |}).
Proof.
  unfold blank, makeRequest_begin, bind, getHooks, start. simpl.
  intros ->. reflexivity.
Qed.

Lemma makeRequest_begin_sends (clock : nat -> Q) (c : Component) :
  blank (url c) = false ->
  makeRequest_begin clock (start c) =
    (Normal (Some (clock O)),
     {| hooks := setError None (setLoading true c); reads := 1%nat;
        bodyUsed := false;
        events := [PerformanceNow (clock O); ConsoleLogUrl (requestUrl c);
                   ConsoleLogOptions (requestOptions c);
                   Fetch (requestUrl c) (requestOptions c)] |}).
Proof.
  unfold blank, makeRequest_begin, bind, getHooks, start. simpl.
  intros ->. reflexivity.
Qed.

(** C2.  A submission whose URL is empty or made of white space only never
    calls the transport and leaves every cell (loading, response, error and
    the draft) as it was; all it does is show one notification. *)
Theorem blank_url_blocks_submission (clock : nat -> Q)
  (fetch : jsstring -> RequestInit.t -> Settlement) (c : Component) :
  whitespace_only (url c) = true ->
  let e := snd (makeRequest clock fetch (start c)) in
  hooks e = c /\
  events e = [Toast (js "Error") (js "Please enter a valid URL") true] /\
  sent (events e) = [] /\
  reads e = O.
Proof.
  intros H. apply blank_iff_whitespace_only in H.
  unfold makeRequest, bind, getHooks. simpl.
  rewrite (makeRequest_begin_blocked clock c H). simpl.
  repeat split; reflexivity.
Qed.

(** ** The request that is built *)

Lemma requestOptions_headers (c : Component) :
  RequestInit.headers (requestOptions c) = parsedHeaders c.
Proof.
  unfold requestOptions.
  destruct (negb (String_eqb (method c) (js "GET"))
            && negb (String_eqb (method c) (js "HEAD"))
            && truthy (trim (requestBody c))); reflexivity.
Qed.

Lemma requestOptions_method (c : Component) :
  RequestInit.method (requestOptions c) = method c.
Proof.
  unfold requestOptions.
  destruct (negb (String_eqb (method c) (js "GET"))
            && negb (String_eqb (method c) (js "HEAD"))
            && truthy (trim (requestBody c))); reflexivity.
Qed.

(** The body of the request, by the test of line 65. *)
Lemma requestOptions_body (c : Component) (b : jsstring) :
  RequestInit.body (requestOptions c) = Some b <->
  b = requestBody c /\ method c <> js "GET" /\ method c <> js "HEAD" /\
  blank (requestBody c) = false.
Proof.
  unfold requestOptions, blank.
  destruct (String_eqb (method c) (js "GET")) eqn:EG;
    destruct (String_eqb (method c) (js "HEAD")) eqn:EH;
    destruct (truthy (trim (requestBody c))) eqn:ET; simpl;
    rewrite ?String_eqb_eq, ?String_eqb_neq in *;
    (split; [intros H; try discriminate H | intros (Hb & G & Hd & B)]);
    try congruence.
  injection H as <-. repeat split; assumption.
Qed.

(** C6.  The request handed to the transport carries a body exactly when the
    method is neither GET nor HEAD and the body text is not blank, and the
    body is then the text of the draft as typed; with HEAD there is none,
    whatever the text. *)
Theorem request_body_rule (clock : nat -> Q) (c : Component) :
  blank (url c) = false ->
  let e := snd (makeRequest_begin clock (start c)) in
  sent (events e) = [(requestUrl c, requestOptions c)] /\
  (forall b, RequestInit.body (requestOptions c) = Some b <->
             b = requestBody c /\ method c <> js "GET" /\ method c <> js "HEAD" /\
             blank (requestBody c) = false) /\
  (method c = js "GET" \/ method c = js "HEAD" \/ blank (requestBody c) = true ->
   RequestInit.body (requestOptions c) = None) /\
  (method c = js "HEAD" -> RequestInit.body (requestOptions c) = None).
Proof.
  intros H. rewrite (makeRequest_begin_sends clock c H). simpl.
  assert (N : method c = js "GET" \/ method c = js "HEAD" \/
              blank (requestBody c) = true ->
              RequestInit.body (requestOptions c) = None).
  { intros D. destruct (RequestInit.body (requestOptions c)) as [b|] eqn:E;
      [|reflexivity].
    apply requestOptions_body in E. destruct E as (_ & G & Hd & B).
    destruct D as [D|[D|D]]; congruence. }
  split; [reflexivity|].
  split; [intros b; apply requestOptions_body|].
  split; [exact N|].
  intros Hd. apply N. tauto.
Qed.

(** ** The handler from the moment the transport settles *)

Lemma responseData_text (res : Response.t) (e : Env) :
  declaresJSON res = false -> bodyUsed e = false ->
  responseData res e = (Normal (JString (bodyText res)), withEvents e (hasBody res) [ResText]).
Proof.
  intros D U. unfold responseData, bodyText, hasBody, withEvents.
  rewrite D. unfold bind, res_text. simpl. rewrite U.
  destruct (Response.body res); reflexivity.
Qed.

Lemma responseData_json (res : Response.t) (e : Env) (text : jsstring) (v : JSON) :
  declaresJSON res = true -> bodyUsed e = false ->
  Response.body res = Some text -> JSON_parse text = Some v ->
  responseData res e = (Normal v, withEvents e true [ResJson]).
Proof.
  intros D U B P. unfold responseData, withEvents.
  rewrite D. unfold tryCatch, res_json. simpl. rewrite B, U, P. reflexivity.
Qed.

(** The fallback of line 83 reads a body that line 81 has consumed. *)
Lemma responseData_fallback_throws (res : Response.t) (e : Env) (text : jsstring) :
  declaresJSON res = true -> bodyUsed e = false ->
  Response.body res = Some text -> JSON_parse text = None ->
  responseData res e =
    (Throw (ErrorInstance body_used_message), withEvents e true [ResJson; ResText]).
Proof.
  intros D U B P. unfold responseData, withEvents.
  rewrite D. unfold tryCatch, bind, res_json, res_text. simpl.
  rewrite B, U, P. simpl. rewrite <- app_assoc. reflexivity.
Qed.

(** Only a response that has no body falls back to its (empty) text. *)
Lemma responseData_fallback_no_body (res : Response.t) (e : Env) :
  declaresJSON res = true -> Response.body res = None -> JSON_parse [] = None ->
  responseData res e = (Normal (JString []), withEvents e (bodyUsed e) [ResJson; ResText]).
Proof.
  intros D B P. unfold responseData, withEvents.
  rewrite D. unfold tryCatch, bind, res_json, res_text. simpl.
  rewrite B, P. simpl. rewrite <- app_assoc. reflexivity.
Qed.

(** Reading the body touches no cell and no clock. *)
Lemma responseData_frame (res : Response.t) (e : Env) :
  hooks (snd (responseData res e)) = hooks e /\
  reads (snd (responseData res e)) = reads e /\
  exists evs, events (snd (responseData res e)) = events e ++ evs.
Proof.
  unfold responseData, tryCatch, bind, res_json, res_text, ret.
  destruct (declaresJSON res); simpl;
    destruct (Response.body res) as [text|]; simpl.
  - destruct (bodyUsed e); simpl.
    + rewrite <- app_assoc. eauto.
    + destruct (JSON_parse text); simpl; [eauto|].
      rewrite <- app_assoc. eauto.
  - destruct (JSON_parse []); simpl; [eauto|].
    rewrite <- app_assoc. eauto.
  - destruct (bodyUsed e); simpl; eauto.
  - eauto.
Qed.

Lemma makeRequest_settle_rejects (clock : nat -> Q) (startTime : Q) (err : Thrown)
  (e : Env) :
  makeRequest_settle clock startTime (Rejects err) e = (Normal tt, failedEnv clock err e).
Proof.
  unfold makeRequest_settle, tryFinally, tryCatch, bind, await, throw,
    performance_now, emit, update, toast, failedEnv. simpl.
  rewrite <- !app_assoc. reflexivity.
Qed.

Lemma makeRequest_settle_data (clock : nat -> Q) (startTime : Q) (res : Response.t)
  (e e1 : Env) (d : JSON) :
  responseData res (afterNow clock e) = (Normal d, e1) ->
  makeRequest_settle clock startTime (Resolves res) e =
    (Normal tt,
     {| hooks := setLoading false
                   (setResponse (Some (stored clock startTime res d e)) (hooks e1));
        reads := reads e1; bodyUsed := bodyUsed e1;
        events := events e1 ++
          [Toast (js "Request Completed")
             (js "Response received in "
                ++ Number_toText (Math_round (Number_minus (clock (reads e)) startTime))
                ++ js "ms")
             false] |}).
Proof.
  intros R.
  unfold makeRequest_settle, tryFinally, tryCatch, bind, await, ret,
    performance_now, emit, update, toast. simpl.
  unfold afterNow in R. rewrite R. reflexivity.
Qed.

Lemma makeRequest_settle_body_throws (clock : nat -> Q) (startTime : Q)
  (res : Response.t) (e e1 : Env) (err : Thrown) :
  responseData res (afterNow clock e) = (Throw err, e1) ->
  makeRequest_settle clock startTime (Resolves res) e = (Normal tt, failedEnv clock err e1).
Proof.
  intros R.
  unfold makeRequest_settle, tryFinally, tryCatch, bind, await, ret,
    performance_now, emit, update, toast, failedEnv. simpl.
  unfold afterNow in R. rewrite R. simpl.
  rewrite <- !app_assoc. reflexivity.
Qed.

(** Every settlement ends the run normally, reads the clock first, clears
    [loading], and stores either a response with the elapsed time or an error
    message, never both. *)
Lemma makeRequest_settle_spec (clock : nat -> Q) (startTime : Q)
  (outcome : Settlement) (e : Env) :
  let r := makeRequest_settle clock startTime outcome e in
  fst r = Normal tt /\
  (exists rest, events (snd r) = events e ++ PerformanceNow (clock (reads e)) :: rest) /\
  loading (hooks (snd r)) = false /\
  ((exists res d,
      outcome = Resolves res /\
      response (hooks (snd r)) = Some (stored clock startTime res d e) /\
      error (hooks (snd r)) = error (hooks e))
   \/
   (exists err,
      error (hooks (snd r)) = Some (errorMessage err) /\
      response (hooks (snd r)) = response (hooks e))).
Proof.
  destruct outcome as [res|err]; cbv zeta.
  - destruct (responseData res (afterNow clock e)) as [[d|err] e1] eqn:R;
      pose proof (responseData_frame res (afterNow clock e)) as (Fh & Fr & evs & Fe);
      rewrite R in Fh, Fr, Fe; simpl in Fh, Fr, Fe.
    + rewrite (makeRequest_settle_data _ _ _ _ _ _ R). simpl.
      split; [reflexivity|]. split.
      { rewrite Fe. rewrite <- !app_assoc. simpl. eauto. }
      split; [reflexivity|]. left. exists res, d. rewrite Fh. auto.
    + rewrite (makeRequest_settle_body_throws _ _ _ _ _ _ R). simpl.
      split; [reflexivity|]. split.
      { rewrite Fe. rewrite <- !app_assoc. simpl. eauto. }
      split; [reflexivity|]. right. exists err. rewrite Fh. auto.
  - rewrite makeRequest_settle_rejects. simpl.
    split; [reflexivity|]. split; [eauto|].
    split; [reflexivity|]. right. exists err. auto.
Qed.

(** What happens after the transport settles does not depend on the draft. *)
Lemma makeRequest_settle_draft_irrelevant (clock : nat -> Q) (startTime : Q)
  (outcome : Settlement) (e e0 : Env) :
  reads e = reads e0 -> bodyUsed e = bodyUsed e0 -> events e = events e0 ->
  loading (hooks e) = loading (hooks e0) ->
  response (hooks e) = response (hooks e0) ->
  error (hooks e) = error (hooks e0) ->
  let r := snd (makeRequest_settle clock startTime outcome e) in
  let r0 := snd (makeRequest_settle clock startTime outcome e0) in
  events r = events r0 /\ loading (hooks r) = loading (hooks r0) /\
  response (hooks r) = response (hooks r0) /\ error (hooks r) = error (hooks r0).
Proof.
  destruct e as [h n u evs], e0 as [h0 n0 u0 evs0]. simpl.
  intros -> -> -> L R E.
  destruct outcome as [res|err].
  - unfold makeRequest_settle, tryFinally, tryCatch, bind, await, ret,
      responseData, res_json, res_text, performance_now, emit, update, toast.
    simpl.
    destruct (declaresJSON res); simpl;
      destruct (Response.body res) as [text|]; simpl;
      try destruct u0; simpl;
      try destruct (JSON_parse text); simpl;
      try destruct (JSON_parse []); simpl;
      repeat split; try reflexivity; try assumption.
  - rewrite !makeRequest_settle_rejects. simpl.
    repeat split; try reflexivity; assumption.
Qed.

(** C5.  When the headers text does not parse as JSON, the request is sent
    all the same, with the empty object as its headers and with its body by
    the usual rule; up to the call of the transport nothing is notified and
    no error is stored, and the whole run emits and stores what it would for
    a headers text that parses to the empty object. *)
Theorem unparseable_headers_sent_empty (clock : nat -> Q)
  (fetch : jsstring -> RequestInit.t -> Settlement) (c : Component) :
  blank (url c) = false ->
  JSON_parse (headers c) = None ->
  let e := snd (makeRequest_begin clock (start c)) in
  events e = [PerformanceNow (clock O); ConsoleLogUrl (requestUrl c);
              ConsoleLogOptions (requestOptions c);
              Fetch (requestUrl c) (requestOptions c)] /\
  RequestInit.headers (requestOptions c) = JObject [] /\
  existsb isToast (events e) = false /\
  error (hooks e) = None /\
  (method c <> js "GET" -> method c <> js "HEAD" -> blank (requestBody c) = false ->
   RequestInit.body (requestOptions c) = Some (requestBody c)) /\
  (forall h0, JSON_parse h0 = Some (JObject []) ->
     let c0 := setDraft (url c) (method c) (requestBody c) h0 (useCorsProxy c) c in
     let r := snd (makeRequest clock fetch (start c)) in
     let r0 := snd (makeRequest clock fetch (start c0)) in
     events r = events r0 /\ loading (hooks r) = loading (hooks r0) /\
     response (hooks r) = response (hooks r0) /\
     error (hooks r) = error (hooks r0)).
Proof.
  intros H P. rewrite (makeRequest_begin_sends clock c H). simpl.
  assert (Hh : RequestInit.headers (requestOptions c) = JObject []).
  { rewrite requestOptions_headers. unfold parsedHeaders. rewrite P. reflexivity. }
  split; [reflexivity|]. split; [exact Hh|]. split; [reflexivity|].
  split; [reflexivity|]. split.
  { intros G Hd B. apply requestOptions_body. tauto. }
  intros h0 P0.
  set (c0 := setDraft (url c) (method c) (requestBody c) h0 (useCorsProxy c) c).
  assert (Eo : requestOptions c0 = requestOptions c).
  { unfold requestOptions, parsedHeaders, c0. simpl. rewrite P0, P. reflexivity. }
  assert (Eu : requestUrl c0 = requestUrl c) by reflexivity.
  assert (H0 : blank (url c0) = false) by exact H.
  unfold makeRequest, bind, getHooks. simpl.
  rewrite (makeRequest_begin_sends clock c H), (makeRequest_begin_sends clock c0 H0).
  rewrite Eo, Eu.
  apply makeRequest_settle_draft_irrelevant; reflexivity.
Qed.

(** C10.  When the headers text parses as JSON to a value that is no object
    (an array, a number, a string, a boolean, null), that value itself is the
    [headers] of the request handed to the transport: only a parse error
    gives the empty object, and nothing checks what kind of value was
    parsed. *)
Theorem parsed_headers_passed_through (clock : nat -> Q) (c : Component) (v : JSON) :
  blank (url c) = false ->
  JSON_parse (headers c) = Some v ->
  isObject v = false ->
  let e := snd (makeRequest_begin clock (start c)) in
  sent (events e) = [(requestUrl c, requestOptions c)] /\
  RequestInit.headers (requestOptions c) = v /\
  RequestInit.headers (requestOptions c) <> JObject [].
Proof.
  intros H P O. rewrite (makeRequest_begin_sends clock c H). simpl.
  assert (Hh : RequestInit.headers (requestOptions c) = v).
  { rewrite requestOptions_headers. unfold parsedHeaders. rewrite P. reflexivity. }
  split; [reflexivity|]. split; [exact Hh|].
  rewrite Hh. intros ->. discriminate O.
Qed.

(** ** Failures *)

Lemma errorMessage_cors (m : jsstring) :
  includes m (js "CORS") || includes m (js "fetch") = true ->
  errorMessage (ErrorInstance m) = cors_prefix ++ m ++ remediation_suffix.
Proof. unfold errorMessage. intros ->. reflexivity. Qed.

(** The augmented message starts with CORS, which is what the banner looks
    for (line 312). *)
Lemma cors_message_flagged (m : jsstring) :
  includes (cors_prefix ++ m ++ remediation_suffix) (js "CORS") = true.
Proof. reflexivity. Qed.

Lemma endsWith_suffix (a b : jsstring) : skipn (List.length a) (a ++ b) = b.
Proof. induction a; simpl; auto. Qed.

(** A message with neither mark is stored as it is. *)
Lemma errorMessage_plain (m : jsstring) :
  includes m (js "CORS") || includes m (js "fetch") = false ->
  errorMessage (ErrorInstance m) = m.
Proof. unfold errorMessage. intros ->. reflexivity. Qed.

(** An [Error] whose message is the empty text keeps it: the generic message
    is for what is no [Error] at all.  The empty text is falsy, so no banner
    is rendered for it. *)
Lemma empty_message_is_kept (clock : nat -> Q) (startTime : Q) (c : Component) :
  error (settled clock startTime (Rejects (ErrorInstance [])) c) = Some [] /\
  errorBanner (render (settled clock startTime (Rejects (ErrorInstance [])) c)) = None.
Proof.
  unfold settled. rewrite makeRequest_settle_rejects. split; reflexivity.
Qed.

(** C8, as the code has it.  When the transport rejects with an error whose
    message contains CORS or fetch, the stored message is the original text
    between the fixed prefix and the remediation suffix, and the error banner
    shows it with the checklist under it.  The generic message is stored when
    what was thrown is no [Error] at all.  The message of an [Error] that
    contains neither mark is stored as it is, the empty one too: for that one
    no generic text is put in, and no banner is shown. *)
Theorem cors_failure_message (clock : nat -> Q) (startTime : Q) (c : Component)
  (m : jsstring) :
  includes m (js "CORS") || includes m (js "fetch") = true ->
  let after err := hooks (snd (makeRequest_settle clock startTime
                                 (Rejects err) (start c))) in
  let c' := after (ErrorInstance m) in
  let fallback := after NotAnError in
  error c' = Some (cors_prefix ++ m ++ remediation_suffix) /\
  includes (cors_prefix ++ m ++ remediation_suffix) m = true /\
  skipn (List.length (cors_prefix ++ m)) (cors_prefix ++ m ++ remediation_suffix)
    = remediation_suffix /\
  errorBanner (render c') = Some (cors_prefix ++ m ++ remediation_suffix, true) /\
  error fallback = Some (js "Unknown error occurred") /\
  errorBanner (render fallback) = Some (js "Unknown error occurred", false) /\
  (forall plain,
     includes plain (js "CORS") || includes plain (js "fetch") = false ->
     error (after (ErrorInstance plain)) = Some plain /\
     errorBanner (render (after (ErrorInstance plain)))
       = if truthy plain then Some (plain, false) else None) /\
  error (after (ErrorInstance [])) = Some [] /\
  errorBanner (render (after (ErrorInstance []))) = None.
Proof.
  intros I. cbv zeta.
  assert (P : forall plain,
            includes plain (js "CORS") || includes plain (js "fetch") = false ->
            error (hooks (snd (makeRequest_settle clock startTime
                                 (Rejects (ErrorInstance plain)) (start c))))
              = Some plain /\
            errorBanner (render (hooks (snd (makeRequest_settle clock startTime
                                 (Rejects (ErrorInstance plain)) (start c)))))
              = if truthy plain then Some (plain, false) else None).
  { intros plain N. rewrite makeRequest_settle_rejects.
    unfold failedEnv, render.
    cbn [snd hooks error setLoading setError errorBanner].
    rewrite (errorMessage_plain plain N).
    apply orb_false_iff in N. destruct N as [N _]. rewrite N.
    split; reflexivity. }
  split; [|split; [|split; [|split; [|split; [|split; [|split; [exact P|]]]]]]].
  - rewrite makeRequest_settle_rejects.
    unfold failedEnv. cbn [snd hooks error setLoading setError].
    rewrite (errorMessage_cors m I). reflexivity.
  - apply includes_segment.
  - rewrite app_assoc. apply endsWith_suffix.
  - rewrite makeRequest_settle_rejects.
    unfold failedEnv, render.
    cbn [snd hooks error setLoading setError errorBanner].
    rewrite (errorMessage_cors m I), cors_message_flagged. reflexivity.
  - rewrite makeRequest_settle_rejects. reflexivity.
  - rewrite makeRequest_settle_rejects. reflexivity.
  - apply (P [] eq_refl).
Qed.

(** ** Decoding the body *)

(** Any other declared content type, or none: the body is read as text. *)
Lemma other_content_type_reads_text (clock : nat -> Q) (startTime : Q)
  (c : Component) (res : Response.t) :
  declaresJSON res = false ->
  let e := snd (makeRequest_settle clock startTime (Resolves res) (start c)) in
  response (hooks e) = Some (stored clock startTime res (JString (bodyText res)) (start c)) /\
  error (hooks e) = error c /\ loading (hooks e) = false.
Proof.
  intros D.
  rewrite (makeRequest_settle_data clock startTime res (start c) _ _
             (responseData_text res (afterNow clock (start c)) D eq_refl)).
  simpl. repeat split; reflexivity.
Qed.

(** Declared JSON that decodes: the decoded value is stored. *)
Lemma declared_json_is_decoded (clock : nat -> Q) (startTime : Q)
  (c : Component) (res : Response.t) (text : jsstring) (v : JSON) :
  declaresJSON res = true -> Response.body res = Some text ->
  JSON_parse text = Some v ->
  let e := snd (makeRequest_settle clock startTime (Resolves res) (start c)) in
  response (hooks e) = Some (stored clock startTime res v (start c)) /\
  error (hooks e) = error c /\ loading (hooks e) = false.
Proof.
  intros D B P.
  rewrite (makeRequest_settle_data clock startTime res (start c) _ _
             (responseData_json res (afterNow clock (start c)) text v D eq_refl B P)).
  simpl. repeat split; reflexivity.
Qed.

(** C9, where the code departs from it.  A response that declares JSON and
    whose body does not decode is not stored with its text: the fallback
    reads a body that the failed decoding has consumed, the read throws, and
    the run ends as a failure, with that error as the stored message and the
    response cell as it was. *)
Theorem undecodable_json_body_fails (clock : nat -> Q) (startTime : Q)
  (c : Component) (res : Response.t) (text : jsstring) :
  declaresJSON res = true -> Response.body res = Some text ->
  JSON_parse text = None ->
  let e := snd (makeRequest_settle clock startTime (Resolves res) (start c)) in
  error (hooks e) = Some (errorMessage (ErrorInstance body_used_message)) /\
  response (hooks e) = response c /\
  loading (hooks e) = false /\
  events e = [PerformanceNow (clock O); ResJson; ResText; PerformanceNow (clock 1%nat);
              ConsoleError (ErrorInstance body_used_message);
              Toast (js "Request Failed")
                (errorMessage (ErrorInstance body_used_message)) true].
Proof.
  intros D B P.
  rewrite (makeRequest_settle_body_throws clock startTime res (start c) _ _
             (responseData_fallback_throws res (afterNow clock (start c)) text
                D eq_refl B P)).
  simpl. repeat split; reflexivity.
Qed.

(** ** Elapsed time *)

(** Reading the body gives what [decoded] says and touches nothing else. *)
Lemma responseData_decoded (res : Response.t) (e : Env) (d : JSON) :
  bodyUsed e = false ->
  decoded res = Some d ->
  exists e', responseData res e = (Normal d, e') /\ hooks e' = hooks e.
Proof.
  intros U D. unfold decoded, bodyText in D.
  unfold responseData, tryCatch, bind, res_json, res_text, ret.
  destruct (declaresJSON res); simpl;
    destruct (Response.body res) as [text|]; simpl; rewrite ?U; simpl.
  - rewrite D. eexists. split; reflexivity.
  - destruct (JSON_parse []); injection D as <-; eexists; split; reflexivity.
  - injection D as <-. eexists. split; reflexivity.
  - injection D as <-. eexists. split; reflexivity.
Qed.

(** C3, as the code has it.  A run with a URL reads the clock once before the
    transport is called (only the building and the logging of the request lie
    between) and once more as the first thing after the transport settles.
    When the transport resolves and the body is read, the response stored
    carries the rounded difference of the two readings, as doubles are
    subtracted: when that difference is finite, an integer within one half of
    it, a tie going up, and not negative on a clock that does not go back.
    When the transport rejects, the error message alone is stored; the
    response cell, and with it any elapsed time on display, is left as it
    was. *)
Theorem elapsed_time_of_a_run (clock : nat -> Q)
  (fetch : jsstring -> RequestInit.t -> Settlement) (c : Component) :
  blank (url c) = false ->
  let e := snd (makeRequest clock fetch (start c)) in
  let elapsed := Number_minus (clock 1%nat) (clock O) in
  (exists rest,
     events e = [PerformanceNow (clock O); ConsoleLogUrl (requestUrl c);
                 ConsoleLogOptions (requestOptions c);
                 Fetch (requestUrl c) (requestOptions c);
                 PerformanceNow (clock 1%nat)] ++ rest) /\
  (forall res d,
     fetch (requestUrl c) (requestOptions c) = Resolves res ->
     decoded res = Some d ->
     response (hooks e)
       = Some {| ApiResponse.data := d;
                 ApiResponse.status := Response.status res;
                 ApiResponse.statusText := Response.statusText res;
                 ApiResponse.headers := collectHeaders (Response.headers res);
                 ApiResponse.timing := Math_round elapsed |} /\
     error (hooks e) = None /\
     (forall q, elapsed = Finite q ->
        exists ms : Z,
          Math_round elapsed = Finite (inject_Z ms) /\
          (inject_Z ms - (1 # 2) <= q < inject_Z ms + (1 # 2))%Q /\
          (Number_le (asDouble (clock O)) (asDouble (clock 1%nat)) -> 0 <= ms))) /\
  (forall err,
     fetch (requestUrl c) (requestOptions c) = Rejects err ->
     error (hooks e) = Some (errorMessage err) /\
     response (hooks e) = response c).
Proof.
  intros H. unfold makeRequest, bind, getHooks. simpl.
  rewrite (makeRequest_begin_sends clock c H).
  set (e1 := {| hooks := setError None (setLoading true c); reads := 1%nat;
                bodyUsed := false;
                events := [PerformanceNow (clock O); ConsoleLogUrl (requestUrl c);
                           ConsoleLogOptions (requestOptions c);
                           Fetch (requestUrl c) (requestOptions c)] |}).
  split; [|split].
  - pose proof (makeRequest_settle_spec clock (clock O)
                  (fetch (requestUrl c) (requestOptions c)) e1)
      as (_ & (rest & Ev) & _).
    exists rest. rewrite Ev. reflexivity.
  - intros res d F D. rewrite F.
    destruct (responseData_decoded res (afterNow clock e1) d eq_refl D)
      as (e' & R & Hh).
    rewrite (makeRequest_settle_data clock (clock O) res e1 e' d R).
    cbn [snd hooks response error setLoading setResponse]. rewrite Hh.
    split; [reflexivity|]. split; [reflexivity|].
    intros q Q. exists (nearestInteger q).
    split; [rewrite Q; reflexivity|]. split; [apply nearestInteger_nearest|].
    intros Mono. apply nearestInteger_nonneg.
    exact (Number_minus_nonneg _ _ q Mono Q).
  - intros err F. rewrite F, makeRequest_settle_rejects.
    split; reflexivity.
Qed.

(** ** The formatter *)

Lemma UnicodeEscape_length (c : N) : List.length (UnicodeEscape c) = 6%nat.
Proof. reflexivity. Qed.

Lemma escape_unit_length (c : N) : (1 <= List.length (escape_unit c))%nat.
Proof.
  unfold escape_unit.
  repeat match goal with
         | |- context [if ?b then _ else _] => destruct b
         end; simpl; lia.
Qed.

(** Quoting never shortens a text. *)
Lemma quote_units_length (s : jsstring) :
  (List.length s <= List.length (quote_units s))%nat.
Proof.
  enough (G : (List.length s <= List.length (quote_units s))%nat /\
              forall c, (List.length (c :: s) <= List.length (quote_units (c :: s)))%nat)
    by apply G.
  induction s as [|d s [IH1 IH2]].
  - split; [simpl; lia|]. intros c. simpl.
    destruct (isLeadingSurrogate c); [simpl; lia|].
    destruct (isTrailingSurrogate c); [simpl; lia|].
    rewrite length_app. pose proof (escape_unit_length c). simpl. lia.
  - split; [apply IH2|]. intros c.
    change (quote_units (c :: d :: s)) with
      (if isLeadingSurrogate c then
         if isTrailingSurrogate d then c :: d :: quote_units s
         else UnicodeEscape c ++ quote_units (d :: s)
       else if isTrailingSurrogate c then UnicodeEscape c ++ quote_units (d :: s)
       else escape_unit c ++ quote_units (d :: s)).
    specialize (IH2 d). pose proof (escape_unit_length c).
    destruct (isLeadingSurrogate c); [destruct (isTrailingSurrogate d)|
      destruct (isTrailingSurrogate c)];
      rewrite ?length_app, ?UnicodeEscape_length; simpl in *; lia.
Qed.

(** A text is printed as a JSON string literal, which is longer than it. *)
Lemma formatJson_text (s : jsstring) :
  formatJson (JString s) = QuoteJSONString s /\
  (List.length s + 2 <= List.length (formatJson (JString s)))%nat.
Proof.
  split; [reflexivity|].
  change (formatJson (JString s)) with (QuoteJSONString s).
  unfold QuoteJSONString. rewrite !length_app. simpl.
  pose proof (quote_units_length s). lia.
Qed.

(** C4, as the code has it.  The formatter is not idempotent on its own
    output: given the text it produced for a value, it prints that text as a
    JSON string literal, in double quotes and with its quotes, backslashes
    and line breaks escaped, which is at least two characters longer than the
    text and so never equal to it. *)
Theorem formatted_text_is_quoted_again (v : JSON) :
  formatJson (JString (formatJson v)) = QuoteJSONString (formatJson v) /\
  (List.length (formatJson v) + 2
   <= List.length (formatJson (JString (formatJson v))))%nat /\
  formatJson (JString (formatJson v)) <> formatJson v.
Proof.
  pose proof (formatJson_text (formatJson v)) as [E L].
  split; [exact E|]. split; [exact L|].
  intros A. rewrite A in L. lia.
Qed.

(** ** One panel at a time *)

Arguments formatJson : simpl never.




Lemma panels_succeeded (c : Component) (r : ApiResponse.t) :
  loading c = false -> truthy_opt (error c) = false -> response c = Some r ->
  panels (render c) = [Succeeded (formatJson (ApiResponse.data r))].
Proof.
  intros L E R. unfold panels, render. simpl. rewrite L, R.
  destruct (error c) as [msg|]; simpl in *; rewrite ?E; reflexivity.
Qed.



(* ================================================================== *)
(** * Further properties of the handler and of what is rendered *)

Set Default Proof Using "Type".

(** ** The record of response headers (lines 89-92) *)

Lemma Headers_get_app (a b : list (jsstring * jsstring)) (name : jsstring) :
  Headers_get (a ++ b) name =
  match Headers_get a name with
  | Some v => Some v
  | None => Headers_get b name
  end.
Proof.
  unfold Headers_get. induction a as [|[k v] a IH]; simpl; [reflexivity|].
  destruct (String_eqb k name); [reflexivity|exact IH].
Qed.

Lemma hasOwnProperty_false (obj : list (jsstring * jsstring)) (key : jsstring) :
  hasOwnProperty obj key = false <-> ~ In key (map fst obj).
Proof.
  unfold hasOwnProperty. induction obj as [|[k v] rest IH]; simpl.
  - split; [intros _ []|reflexivity].
  - destruct (String_eqb k key) eqn:E; simpl.
    + apply String_eqb_eq in E. split; [discriminate|].
      intros N. exfalso. apply N. left. exact E.
    + apply String_eqb_neq in E. rewrite IH. split.
      * intros N [H|H]; [exact (E H)|exact (N H)].
      * intros N H. apply N. right. exact H.
Qed.

Lemma Headers_get_absent (obj : list (jsstring * jsstring)) (key : jsstring) :
  ~ In key (map fst obj) -> Headers_get obj key = None.
Proof.
  unfold Headers_get. induction obj as [|[k v] rest IH]; simpl; intros N;
    [reflexivity|].
  destruct (String_eqb k key) eqn:E.
  - apply String_eqb_eq in E. exfalso. apply N. left. exact E.
  - apply IH. intros H. apply N. right. exact H.
Qed.

(** A replaced value leaves the keys and their order as they were. *)
Lemma replaceValue_keys (obj : list (jsstring * jsstring)) (key value : jsstring) :
  map fst (replaceValue obj key value) = map fst obj.
Proof.
  induction obj as [|[k v] rest IH]; simpl; [reflexivity|].
  destruct (String_eqb k key); simpl; [reflexivity|]. rewrite IH. reflexivity.
Qed.

Lemma Headers_get_replaceValue (obj : list (jsstring * jsstring))
  (key value name : jsstring) :
  hasOwnProperty obj key = true ->
  Headers_get (replaceValue obj key value) name =
  if String_eqb key name then Some value else Headers_get obj name.
Proof.
  unfold Headers_get, hasOwnProperty.
  induction obj as [|[k v] rest IH]; simpl; [discriminate|].
  destruct (String_eqb k key) eqn:E; simpl.
  - intros _. apply String_eqb_eq in E. subst k.
    destruct (String_eqb key name); reflexivity.
  - intros H. destruct (String_eqb k name) eqn:En; simpl; [|exact (IH H)].
    destruct (String_eqb key name) eqn:Ek; [|reflexivity].
    apply String_eqb_eq in En, Ek. apply String_eqb_neq in E.
    exfalso. apply E. rewrite En, Ek. reflexivity.
Qed.

(** A new array index goes in somewhere: what was there stays, in its order. *)
Lemma insertIndex_split (obj : list (jsstring * jsstring)) (i : N)
  (key value : jsstring) :
  exists a b, obj = a ++ b /\ insertIndex obj i key value = a ++ (key, value) :: b.
Proof.
  induction obj as [|[k v] rest IH]; simpl.
  - exists [], []. split; reflexivity.
  - destruct (arrayIndex k) as [j|].
    + destruct (i <? j)%N.
      * exists [], ((k, v) :: rest). split; reflexivity.
      * destruct IH as (a & b & E1 & E2).
        exists ((k, v) :: a), b. simpl. rewrite <- E1, E2. split; reflexivity.
    + exists [], ((k, v) :: rest). split; reflexivity.
Qed.

Lemma Headers_get_added (a b : list (jsstring * jsstring))
  (key value name : jsstring) :
  ~ In key (map fst (a ++ b)) ->
  Headers_get (a ++ (key, value) :: b) name =
  if String_eqb key name then Some value else Headers_get (a ++ b) name.
Proof.
  intros N. rewrite !Headers_get_app.
  destruct (String_eqb key name) eqn:E.
  - apply String_eqb_eq in E. subst name.
    rewrite Headers_get_absent.
    + unfold Headers_get. simpl.
      rewrite (proj2 (String_eqb_eq key key) eq_refl). reflexivity.
    + intros H. apply N. rewrite map_app. apply in_or_app. left. exact H.
  - destruct (Headers_get a name); [reflexivity|].
    unfold Headers_get. simpl. rewrite E. reflexivity.
Qed.

(** The three ways an assignment with a key other than [__proto__] ends. *)
Lemma setProperty_cases (obj : list (jsstring * jsstring)) (key value : jsstring) :
  String_eqb key (js "__proto__") = false ->
  (hasOwnProperty obj key = true /\
   setProperty obj key value = replaceValue obj key value) \/
  (~ In key (map fst obj) /\
   exists a b, obj = a ++ b /\ setProperty obj key value = a ++ (key, value) :: b).
Proof.
  intros P. unfold setProperty. rewrite P.
  destruct (hasOwnProperty obj key) eqn:H; [left; split; reflexivity|].
  right. split; [apply hasOwnProperty_false; exact H|].
  destruct (arrayIndex key) as [i|].
  - apply insertIndex_split.
  - exists obj, []. rewrite app_nil_r. split; reflexivity.
Qed.

(** Reading a key after writing one: the value written if it is that key,
    and what was there before otherwise.  Writing [__proto__] changes
    nothing. *)
Lemma Headers_get_setProperty (obj : list (jsstring * jsstring))
  (key value name : jsstring) :
  Headers_get (setProperty obj key value) name =
  if String_eqb key (js "__proto__") then Headers_get obj name
  else if String_eqb key name then Some value else Headers_get obj name.
Proof.
  destruct (String_eqb key (js "__proto__")) eqn:P.
  - unfold setProperty. rewrite P. reflexivity.
  - destruct (setProperty_cases obj key value P)
      as [[H ->]|(N & a & b & -> & ->)].
    + apply Headers_get_replaceValue. exact H.
    + apply Headers_get_added. exact N.
Qed.

Lemma setProperty_keys_NoDup (obj : list (jsstring * jsstring))
  (key value : jsstring) :
  NoDup (map fst obj) -> NoDup (map fst (setProperty obj key value)).
Proof.
  intros N. destruct (String_eqb key (js "__proto__")) eqn:P.
  - unfold setProperty. rewrite P. exact N.
  - destruct (setProperty_cases obj key value P)
      as [[H ->]|(F & a & b & -> & ->)].
    + rewrite replaceValue_keys. exact N.
    + rewrite map_app in *. simpl.
      apply (NoDup_Add (Add_app key (map fst a) (map fst b))).
      split; assumption.
Qed.

(** No assignment makes [__proto__] a property. *)
Lemma setProperty_no_proto (obj : list (jsstring * jsstring)) (key value : jsstring) :
  ~ In (js "__proto__") (map fst obj) ->
  ~ In (js "__proto__") (map fst (setProperty obj key value)).
Proof.
  intros N. destruct (String_eqb key (js "__proto__")) eqn:P.
  - unfold setProperty. rewrite P. exact N.
  - destruct (setProperty_cases obj key value P)
      as [[H ->]|(F & a & b & -> & ->)].
    + rewrite replaceValue_keys. exact N.
    + rewrite map_app in *. simpl. intros I.
      apply in_app_or in I. destruct I as [I|[I|I]].
      * apply N, in_or_app. left. exact I.
      * apply String_eqb_neq in P. exact (P I).
      * apply N, in_or_app. right. exact I.
Qed.

(** A key that is not there yet, and is neither [__proto__] nor an array
    index, is added at the end. *)
Lemma setProperty_fresh (obj : list (jsstring * jsstring)) (key value : jsstring) :
  String_eqb key (js "__proto__") = false -> arrayIndex key = None ->
  ~ In key (map fst obj) -> setProperty obj key value = obj ++ [(key, value)].
Proof.
  intros P A N. unfold setProperty. rewrite P, A.
  apply hasOwnProperty_false in N. rewrite N. reflexivity.
Qed.

Lemma collect_from (hs acc : list (jsstring * jsstring)) (name : jsstring) :
  String_eqb name (js "__proto__") = false ->
  Headers_get (fold_left (fun obj kv => setProperty obj (fst kv) (snd kv)) hs acc) name =
  match Headers_get (rev hs) name with
  | Some v => Some v
  | None => Headers_get acc name
  end.
Proof.
  intros P. revert acc. induction hs as [|[k v] hs IH]; intros acc; simpl;
    [reflexivity|].
  rewrite IH, Headers_get_app, Headers_get_setProperty.
  destruct (Headers_get (rev hs) name); [reflexivity|].
  assert (One : Headers_get [(k, v)] name
                = if String_eqb k name then Some v else None) by
    (unfold Headers_get; simpl; destruct (String_eqb k name); reflexivity).
  rewrite One. simpl.
  destruct (String_eqb k name) eqn:E.
  - apply String_eqb_eq in E. subst k. rewrite P. reflexivity.
  - destruct (String_eqb k (js "__proto__")); reflexivity.
Qed.

Lemma collect_keys_NoDup (hs acc : list (jsstring * jsstring)) :
  NoDup (map fst acc) ->
  NoDup (map fst (fold_left (fun obj kv => setProperty obj (fst kv) (snd kv)) hs acc)).
Proof.
  revert acc. induction hs as [|[k v] hs IH]; intros acc N; simpl; [exact N|].
  apply IH. apply setProperty_keys_NoDup. exact N.
Qed.

Lemma collect_no_proto (hs acc : list (jsstring * jsstring)) :
  ~ In (js "__proto__") (map fst acc) ->
  ~ In (js "__proto__")
      (map fst (fold_left (fun obj kv => setProperty obj (fst kv) (snd kv)) hs acc)).
Proof.
  revert acc. induction hs as [|[k v] hs IH]; intros acc N; simpl; [exact N|].
  apply IH. apply setProperty_no_proto. exact N.
Qed.

(** X1.  The record built from the response headers has every name once.
    Looking a name up in it gives the value the iteration yielded last for
    that name (nothing, when the name never came); the one name that is never
    in the record, whatever the iteration yields, is [__proto__]. *)
Theorem collected_headers_keep_last_value (hs : list (jsstring * jsstring))
  (name : jsstring) :
  NoDup (map fst (collectHeaders hs)) /\
  Headers_get (collectHeaders hs) name =
    (if String_eqb name (js "__proto__") then None else Headers_get (rev hs) name).
Proof.
  unfold collectHeaders. split.
  - apply collect_keys_NoDup. constructor.
  - destruct (String_eqb name (js "__proto__")) eqn:P.
    + apply String_eqb_eq in P. subst name.
      apply Headers_get_absent. apply collect_no_proto. intros [].
    + rewrite (collect_from hs [] name P).
      destruct (Headers_get (rev hs) name); reflexivity.
Qed.

(** X2.  When the iteration yields every name once, as a [Headers] object
    does, and no name is [__proto__] or the decimal text of an array index,
    the record is those pairs in the order they came. *)
Theorem collected_headers_of_distinct_names (hs : list (jsstring * jsstring)) :
  NoDup (map fst hs) ->
  Forall (fun kv => String_eqb (fst kv) (js "__proto__") = false /\
                    arrayIndex (fst kv) = None) hs ->
  collectHeaders hs = hs.
Proof.
  unfold collectHeaders.
  enough (G : forall acc, NoDup (map fst (acc ++ hs)) ->
              Forall (fun kv => String_eqb (fst kv) (js "__proto__") = false /\
                                arrayIndex (fst kv) = None) hs ->
              fold_left (fun obj kv => setProperty obj (fst kv) (snd kv)) hs acc
              = acc ++ hs) by (intros N F; exact (G [] N F)).
  induction hs as [|[k v] hs IH]; intros acc N F; simpl.
  - rewrite app_nil_r. reflexivity.
  - inversion F as [|? ? [P A] F']; subst. simpl in P, A.
    rewrite (setProperty_fresh acc k v P A).
    + rewrite IH; [|rewrite <- app_assoc; exact N|exact F'].
      rewrite <- app_assoc. reflexivity.
    + rewrite map_app in N. simpl in N. apply NoDup_remove_2 in N.
      intros H. apply N. apply in_or_app. left. exact H.
Qed.

(** ** The shape of every run *)

Lemma sent_app (a b : list Event) : sent (a ++ b) = sent a ++ sent b.
Proof. unfold sent. apply flat_map_app. Qed.

(** Whatever the transport answers, the rest of the handler ends normally
    with [loading] cleared and the draft as it was; it calls the transport no
    more and shows one notification. *)
Lemma makeRequest_settle_shape (clock : nat -> Q) (startTime : Q)
  (outcome : Settlement) (e : Env) :
  let r := makeRequest_settle clock startTime outcome e in
  fst r = Normal tt /\
  loading (hooks (snd r)) = false /\
  (url (hooks (snd r)) = url (hooks e) /\
   method (hooks (snd r)) = method (hooks e) /\
   requestBody (hooks (snd r)) = requestBody (hooks e) /\
   headers (hooks (snd r)) = headers (hooks e) /\
   useCorsProxy (hooks (snd r)) = useCorsProxy (hooks e)) /\
  exists evs, events (snd r) = events e ++ evs /\ sent evs = [] /\
              List.length (filter isToast evs) = 1%nat.
Proof.
  destruct outcome as [res|err]; cbv zeta.
  - unfold makeRequest_settle, tryFinally, tryCatch, bind, await, ret,
      responseData, res_json, res_text, performance_now, emit, update, toast.
    simpl.
    destruct (declaresJSON res); simpl;
      destruct (Response.body res) as [text|]; simpl;
      try destruct (bodyUsed e); simpl;
      try destruct (JSON_parse text); simpl;
      try destruct (JSON_parse []); simpl;
      (split; [reflexivity|]); (split; [reflexivity|]);
      (split; [repeat split; reflexivity|]);
      eexists; (split; [rewrite <- !app_assoc; simpl; reflexivity|]);
      split; reflexivity.
  - rewrite makeRequest_settle_rejects. unfold failedEnv. simpl.
    split; [reflexivity|]. split; [reflexivity|].
    split; [repeat split; reflexivity|].
    eexists. split; [reflexivity|]. split; reflexivity.
Qed.

(** X3.  A run with a URL always ends normally, whatever the transport does:
    nothing is thrown out of the handler, [loading] is cleared, the transport
    was called exactly once and exactly one notification was shown; and the
    send button is enabled again. *)
Theorem every_run_ends_settled (clock : nat -> Q)
  (fetch : jsstring -> RequestInit.t -> Settlement) (c : Component) :
  blank (url c) = false ->
  let r := makeRequest clock fetch (start c) in
  fst r = Normal tt /\
  loading (hooks (snd r)) = false /\
  sent (events (snd r)) = [(requestUrl c, requestOptions c)] /\
  List.length (filter isToast (events (snd r))) = 1%nat /\
  sendDisabled (render (hooks (snd r))) = false.
Proof.
  intros H. unfold makeRequest, bind, getHooks. simpl.
  rewrite (makeRequest_begin_sends clock c H).
  set (e1 := {| hooks := setError None (setLoading true c); reads := 1%nat;
                bodyUsed := false;
                events := [PerformanceNow (clock O); ConsoleLogUrl (requestUrl c);
                           ConsoleLogOptions (requestOptions c);
                           Fetch (requestUrl c) (requestOptions c)] |}).
  pose proof (makeRequest_settle_shape clock (clock O)
                (fetch (requestUrl c) (requestOptions c)) e1)
    as (N & L & (U & _) & evs & Ev & S & T).
  split; [exact N|]. split; [exact L|]. rewrite Ev.
  split; [rewrite sent_app, S; reflexivity|].
  split; [rewrite filter_app, length_app, T; reflexivity|].
  unfold render. simpl. rewrite L, U. simpl.
  unfold blank in H. rewrite H. reflexivity.
Qed.

(** X4.  The handler never writes to the form: after any run, with a URL or
    without, whatever the transport answers, the five cells of the draft hold
    what they held before. *)
Theorem the_handler_never_touches_the_draft (clock : nat -> Q)
  (fetch : jsstring -> RequestInit.t -> Settlement) (c : Component) :
  let c' := hooks (snd (makeRequest clock fetch (start c))) in
  url c' = url c /\ method c' = method c /\ requestBody c' = requestBody c /\
  headers c' = headers c /\ useCorsProxy c' = useCorsProxy c.
Proof.
  cbv zeta. unfold makeRequest, bind, getHooks. simpl.
  destruct (blank (url c)) eqn:H.
  - rewrite (makeRequest_begin_blocked clock c H). simpl.
    repeat split; reflexivity.
  - rewrite (makeRequest_begin_sends clock c H).
    match goal with
    | |- context [makeRequest_settle ?k ?t ?o ?e] =>
        pose proof (makeRequest_settle_shape k t o e) as (_ & _ & D & _)
    end.
    exact D.
Qed.

(** ** The button and the handler's own guard (lines 33 and 251) *)

(** X5.  The send button is enabled exactly when no request is pending and
    the URL is not blank; a click on it then always passes the guard of the
    handler, hands one request to the transport and leaves the component
    pending with the button disabled. *)
Theorem enabled_button_sends_one_request (clock : nat -> Q) (c : Component) :
  (sendDisabled (render c) = false <->
   loading c = false /\ blank (url c) = false) /\
  (sendDisabled (render c) = false ->
   sent (events (snd (makeRequest_begin clock (start c))))
     = [(requestUrl c, requestOptions c)] /\
   loading (clicked clock c) = true /\
   sendDisabled (render (clicked clock c)) = true).
Proof.
  assert (D : sendDisabled (render c) = false <->
              loading c = false /\ blank (url c) = false).
  { unfold render, blank. simpl. rewrite orb_false_iff. reflexivity. }
  split; [exact D|].
  intros E. apply D in E. destruct E as [_ E]. unfold clicked.
  rewrite (makeRequest_begin_sends clock c E). simpl.
  repeat split; reflexivity.
Qed.

(** ** The body input and the body sent (lines 65 and 232) *)

(** X6.  A body goes out only with a method for which the body input is on
    the form: when the input is hidden (GET, HEAD) no body is attached,
    whatever text an earlier method left in the cell. *)
Theorem hidden_body_input_sends_no_body (c : Component) :
  bodyInputShown (render c) = false ->
  RequestInit.body (requestOptions c) = None.
Proof.
  unfold render, requestOptions. simpl. intros ->. reflexivity.
Qed.

(** ** The proxy switch (lines 55-63) *)

(** X7.  The proxy switch changes the URL the transport is given and nothing
    else: with it on, the URL is the draft's URL after the address of the
    relay; the options (method, headers, mode, body) are the same on and
    off. *)
Theorem proxy_changes_only_the_url (clock : nat -> Q) (c : Component) :
  blank (url c) = false ->
  let on := setDraft (url c) (method c) (requestBody c) (headers c) true c in
  let off := setDraft (url c) (method c) (requestBody c) (headers c) false c in
  sent (events (snd (makeRequest_begin clock (start on))))
    = [(js "https://cors-anywhere.herokuapp.com/" ++ url c, requestOptions c)] /\
  sent (events (snd (makeRequest_begin clock (start off))))
    = [(url c, requestOptions c)] /\
  RequestInit.method (requestOptions c) = method c /\
  RequestInit.mode (requestOptions c) = js "cors".
Proof.
  intros H. cbv zeta.
  rewrite !makeRequest_begin_sends by exact H. simpl.
  assert (O : forall p,
             requestOptions (setDraft (url c) (method c) (requestBody c) (headers c) p c)
             = requestOptions c).
  { intros p. unfold requestOptions, parsedHeaders. simpl.
    destruct p, (useCorsProxy c); reflexivity. }
  rewrite !O. split; [reflexivity|]. split; [reflexivity|].
  split; [apply requestOptions_method|].
  unfold requestOptions.
  destruct (negb (String_eqb (method c) (js "GET"))
            && negb (String_eqb (method c) (js "HEAD"))
            && truthy (trim (requestBody c))); simpl;
    destruct (useCorsProxy c); reflexivity.
Qed.

(** ** What is never cleared (lines 42-43, 94, 119) *)

(** X8.  No step of the component clears a stored response: an edit and a
    click keep it, a settlement replaces it or keeps it.  So from the first
    success on the header of the card shows the green check, also after a
    later request has failed. *)
Theorem a_stored_response_is_never_cleared (c c' : Component) :
  step c c' ->
  response c <> None ->
  response c' <> None /\ headerIcon (render c') = CheckCircle.
Proof.
  intros S R.
  assert (R' : response c' <> None).
  { destruct S as [u m b h p c | clock c D | clock t0 outcome c L].
    - exact R.
    - unfold clicked. destruct (blank (url c)) eqn:H.
      + rewrite (makeRequest_begin_blocked clock c H). exact R.
      + rewrite (makeRequest_begin_sends clock c H). exact R.
    - unfold settled.
      pose proof (makeRequest_settle_spec clock t0 outcome (start c))
        as (_ & _ & _ & Cases).
      cbv zeta in Cases.
      destruct Cases as [(res & d & _ & Rs & _)|(err & _ & Rs)];
        rewrite Rs; [discriminate|exact R]. }
  split; [exact R'|].
  unfold render. simpl. destruct (response c'); [reflexivity|congruence].
Qed.

(** ** Answers that are not 2xx (lines 94-100, 275-294) *)

(** X9.  Whatever its status, 404 and 500 included, an answer of the
    transport whose body is read as text is stored as a response and not as
    an error: the header shows the check, the status badge has the class of
    the status and reads the status and its text as the transport gave them,
    and the timing badge and the notification report the same number of
    milliseconds, the rounded difference of the two clock readings as doubles
    are subtracted. *)
Theorem any_status_is_shown_as_a_response (clock : nat -> Q) (startTime : Q)
  (c : Component) (res : Response.t) :
  declaresJSON res = false ->
  error c = None ->
  let e := snd (makeRequest_settle clock startTime (Resolves res) (start c)) in
  let t := Math_round (Number_minus (clock O) startTime) in
  error (hooks e) = None /\
  headerIcon (render (hooks e)) = CheckCircle /\
  badges (render (hooks e))
    = Some (getStatusColor (Response.status res) ++ js " text-white",
            Z_toString (Response.status res) ++ js " " ++ Response.statusText res,
            Number_toText t ++ js "ms") /\
  events e = [PerformanceNow (clock O); ResText;
              Toast (js "Request Completed")
                (js "Response received in " ++ Number_toText t ++ js "ms") false].
Proof.
  intros D E.
  rewrite (makeRequest_settle_data clock startTime res (start c) _ _
             (responseData_text res (afterNow clock (start c)) D eq_refl)).
  cbv zeta. unfold render, withEvents, afterNow, stored, start.
  cbn [snd hooks events reads error response setLoading setResponse
       headerIcon badges ApiResponse.status ApiResponse.statusText
       ApiResponse.timing app].
  split; [exact E|]. repeat split; reflexivity.
Qed.

(** ** A body shown as text (lines 86, 133, 336) *)

Lemma hex_digit_printable (d : N) : (0x20 <=? hex_digit d)%N = true.
Proof.
  unfold hex_digit. destruct (d <? 10)%N; apply N.leb_le; lia.
Qed.

Lemma UnicodeEscape_printable (c : N) :
  forallb (fun u => 0x20 <=? u)%N (UnicodeEscape c) = true.
Proof.
  unfold UnicodeEscape. cbn [forallb]. rewrite !hex_digit_printable. reflexivity.
Qed.

Lemma escape_unit_printable (c : N) :
  forallb (fun u => 0x20 <=? u)%N (escape_unit c) = true.
Proof.
  unfold escape_unit.
  repeat match goal with
         | |- context [if (?a =? ?b)%N then _ else _] =>
             destruct (a =? b)%N; [reflexivity|]
         end.
  destruct (c <? 0x20)%N eqn:E; [apply UnicodeEscape_printable|].
  cbn [forallb]. apply N.ltb_ge in E. apply N.leb_le in E. rewrite E. reflexivity.
Qed.

(** Between the quotes there is no code unit below U+0020. *)
Lemma quote_units_printable (s : jsstring) :
  forallb (fun u => 0x20 <=? u)%N (quote_units s) = true.
Proof.
  enough (G : forallb (fun u => 0x20 <=? u)%N (quote_units s) = true /\
              forall c, forallb (fun u => 0x20 <=? u)%N (quote_units (c :: s)) = true)
    by apply G.
  induction s as [|d s [IH1 IH2]].
  - split; [reflexivity|]. intros c.
    change (quote_units [c]) with
      (if isLeadingSurrogate c then UnicodeEscape c
       else if isTrailingSurrogate c then UnicodeEscape c ++ []
       else escape_unit c ++ []).
    destruct (isLeadingSurrogate c); [apply UnicodeEscape_printable|].
    destruct (isTrailingSurrogate c);
      rewrite app_nil_r; [apply UnicodeEscape_printable|apply escape_unit_printable].
  - split; [apply IH2|]. intros c.
    change (quote_units (c :: d :: s)) with
      (if isLeadingSurrogate c then
         if isTrailingSurrogate d then c :: d :: quote_units s
         else UnicodeEscape c ++ quote_units (d :: s)
       else if isTrailingSurrogate c then UnicodeEscape c ++ quote_units (d :: s)
       else escape_unit c ++ quote_units (d :: s)).
    specialize (IH2 d).
    destruct (isLeadingSurrogate c) eqn:Lc;
      [destruct (isTrailingSurrogate d) eqn:Td|destruct (isTrailingSurrogate c)];
      rewrite ?forallb_app, ?UnicodeEscape_printable, ?escape_unit_printable, ?IH2;
      try reflexivity.
    cbn [forallb]. rewrite IH1.
    unfold isLeadingSurrogate in Lc. unfold isTrailingSurrogate in Td.
    apply andb_true_iff in Lc, Td. destruct Lc as [Lc _], Td as [Td _].
    apply N.leb_le in Lc, Td.
    replace (0x20 <=? c)%N with true by (symmetry; apply N.leb_le; lia).
    replace (0x20 <=? d)%N with true by (symmetry; apply N.leb_le; lia).
    reflexivity.
Qed.

Lemma QuoteJSONString_printable (s : jsstring) :
  forallb (fun u => 0x20 <=? u)%N (QuoteJSONString s) = true.
Proof.
  unfold QuoteJSONString. rewrite !forallb_app, quote_units_printable. reflexivity.
Qed.

(** X10.  A body that is read as text is shown as a JSON string literal, so
    on one line: the text on display holds no line break and no other control
    character, every one of them being written as an escape. *)
Theorem a_text_body_is_shown_on_one_line (clock : nat -> Q) (startTime : Q)
  (c : Component) (res : Response.t) :
  declaresJSON res = false ->
  error c = None ->
  panels (render (settled clock startTime (Resolves res) c))
    = [Succeeded (QuoteJSONString (bodyText res))] /\
  forallb (fun u => 0x20 <=? u)%N (QuoteJSONString (bodyText res)) = true /\
  ~ In 10%N (QuoteJSONString (bodyText res)).
Proof.
  intros D E.
  pose proof (QuoteJSONString_printable (bodyText res)) as P.
  split; [|split; [exact P|]].
  - unfold settled.
    rewrite (makeRequest_settle_data clock startTime res (start c) _ _
               (responseData_text res (afterNow clock (start c)) D eq_refl)).
    apply (panels_succeeded _
             (stored clock startTime res (JString (bodyText res)) (start c)));
      [reflexivity| |reflexivity].
    simpl. rewrite E. reflexivity.
  - intros I. rewrite forallb_forall in P. specialize (P _ I). discriminate P.
Qed.

(** ** When the checklist is shown (lines 111-116, 312) *)

(** X11.  For an error with a message, the banner shows the checklist exactly
    when the message the transport gave contains CORS or fetch; a message
    with neither is shown as it came, without the checklist; and either way
    the text on display contains the message the transport gave. *)
Theorem the_checklist_follows_the_heuristic (clock : nat -> Q) (startTime : Q)
  (c : Component) (m : jsstring) :
  truthy m = true ->
  errorBanner (render (settled clock startTime (Rejects (ErrorInstance m)) c))
    = Some (errorMessage (ErrorInstance m),
            includes m (js "CORS") || includes m (js "fetch")) /\
  (includes m (js "CORS") || includes m (js "fetch") = false ->
   errorMessage (ErrorInstance m) = m) /\
  includes (errorMessage (ErrorInstance m)) m = true.
Proof.
  intros T. unfold settled. rewrite makeRequest_settle_rejects.
  unfold failedEnv, render.
  cbn [snd hooks error setLoading setError errorBanner].
  destruct (includes m (js "CORS") || includes m (js "fetch")) eqn:F.
  - rewrite (errorMessage_cors m F), cors_message_flagged.
    split; [reflexivity|]. split; [discriminate|apply includes_segment].
  - assert (M : errorMessage (ErrorInstance m) = m)
      by (unfold errorMessage; rewrite F; reflexivity).
    rewrite M, T. apply orb_false_elim in F. destruct F as [F _]. rewrite F.
    split; [reflexivity|]. split; [reflexivity|].
    rewrite <- (app_nil_r m) at 1. apply (includes_segment [] m []).
Qed.

(** ** The one response the fallback works for (lines 80-84) *)

(** X12.  A response that declares JSON and has no body (the answer to a
    HEAD request, a 204) is stored with the empty text as its data: the
    decoding of nothing fails, and the fallback of line 83 reads the empty
    text, there being no body to have been consumed.  The rest of what is
    stored is the status and its text, the record of the headers, and the
    rounded difference of the two clock readings. *)
Theorem a_bodiless_json_response_falls_back (clock : nat -> Q) (startTime : Q)
  (c : Component) (res : Response.t) :
  declaresJSON res = true ->
  Response.body res = None ->
  JSON_parse [] = None ->
  let e := snd (makeRequest_settle clock startTime (Resolves res) (start c)) in
  let t := Math_round (Number_minus (clock O) startTime) in
  response (hooks e)
    = Some {| ApiResponse.data := JString [];
              ApiResponse.status := Response.status res;
              ApiResponse.statusText := Response.statusText res;
              ApiResponse.headers := collectHeaders (Response.headers res);
              ApiResponse.timing := t |} /\
  error (hooks e) = error c /\
  events e = [PerformanceNow (clock O); ResJson; ResText;
              Toast (js "Request Completed")
                (js "Response received in " ++ Number_toText t ++ js "ms")
                false].
Proof.
  intros D B P.
  rewrite (makeRequest_settle_data clock startTime res (start c) _ _
             (responseData_fallback_no_body res (afterNow clock (start c)) D B P)).
  cbv zeta. unfold withEvents, afterNow, stored, start.
  cbn [snd hooks events reads error response setLoading setResponse app].
  split; [reflexivity|]. split; reflexivity.
Qed.

(** ** The headers tab (lines 89-92, 344) *)




(** ** One request at a time (lines 42, 127, 251) *)

Lemma history_reachable (acts : list Action) (c : Component) :
  history acts c -> reachable c.
Proof.
  induction 1 as [|acts u m b h p c H IH|acts clock c H IH D
                  |acts clock t0 outcome c H IH L].
  - apply reach_initial.
  - apply reach_step with (c := c); [exact IH|apply step_edit].
  - apply reach_step with (c := c); [exact IH|apply step_click; exact D].
  - apply reach_step with (c := c); [exact IH|apply step_settle; exact L].
Qed.

(** X14.  At most one request is in flight, and [loading] says whether one
    is: along every history of the component, the clicks that sent a request
    outnumber the settlements by one while [loading] is set and by none
    otherwise.  A second request cannot start before the first has settled,
    the button being disabled in between. *)
Theorem one_request_in_flight (acts : list Action) (c : Component) :
  history acts c ->
  inFlight acts = (if loading c then 1 else 0) /\ reachable c.
Proof.
  intros H. split; [|exact (history_reachable acts c H)].
  unfold inFlight.
  induction H as [|acts u m b h p c H IH|acts clock c H IH D
                  |acts clock t0 outcome c H IH L].
  - reflexivity.
  - simpl. exact IH.
  - unfold render in D. simpl in D. apply orb_false_elim in D.
    destruct D as [Dl Du]. apply negb_false_iff in Du.
    unfold clicked.
    rewrite makeRequest_begin_sends by (unfold blank; rewrite Du; reflexivity).
    rewrite Dl in IH. cbn [filter isClicked isSettled List.length snd hooks
                           loading setError setLoading].
    lia.
  - pose proof (makeRequest_settle_spec clock t0 outcome (start c))
      as (_ & _ & F & _).
    cbv zeta in F. unfold settled. rewrite F. rewrite L in IH.
    cbn [filter isClicked isSettled List.length]. lia.
Qed.

(** ** A whole run, a click and a settlement (lines 32-129) *)

(** The cells after the rest of the handler depend on the environment only
    through the cells it holds and the readings of the clock still to come. *)
Lemma makeRequest_settle_from_start (clock : nat -> Q) (startTime : Q)
  (outcome : Settlement) (e : Env) :
  bodyUsed e = false ->
  hooks (snd (makeRequest_settle clock startTime outcome e))
  = settled (fun n => clock (reads e + n)%nat) startTime outcome (hooks e).
Proof.
  intros U. unfold settled. destruct outcome as [res|err].
  - unfold makeRequest_settle, tryFinally, tryCatch, bind, await, ret,
      responseData, res_json, res_text, performance_now, emit, update, toast,
      start.
    simpl. rewrite U, Nat.add_0_r.
    destruct (declaresJSON res); simpl;
      destruct (Response.body res) as [text|]; simpl;
      try destruct (JSON_parse text); simpl;
      try destruct (JSON_parse []); simpl;
      reflexivity.
  - rewrite !makeRequest_settle_rejects. reflexivity.
Qed.

(** X15.  A run of the handler is a click followed by the settlement: the
    cells it leaves are those the settlement leaves on the pending cells, the
    start time being the first reading of the clock; so a run started on
    cells the component can reach, with no request pending, ends on cells it
    can reach. *)
Theorem a_run_is_a_click_then_the_settlement (clock : nat -> Q)
  (fetch : jsstring -> RequestInit.t -> Settlement) (c : Component) :
  blank (url c) = false ->
  hooks (snd (makeRequest clock fetch (start c)))
  = settled (fun n => clock (S n)) (clock O)
      (fetch (requestUrl c) (requestOptions c)) (clicked clock c) /\
  (reachable c -> loading c = false ->
   reachable (hooks (snd (makeRequest clock fetch (start c))))).
Proof.
  intros H.
  assert (E : hooks (snd (makeRequest clock fetch (start c)))
              = settled (fun n => clock (S n)) (clock O)
                  (fetch (requestUrl c) (requestOptions c)) (clicked clock c)).
  { unfold makeRequest, bind, getHooks, clicked. simpl.
    rewrite (makeRequest_begin_sends clock c H).
    rewrite makeRequest_settle_from_start by reflexivity. reflexivity. }
  split; [exact E|]. intros R L. rewrite E.
  apply reach_step with (c := clicked clock c).
  - apply reach_step with (c := c); [exact R|]. apply step_click.
    unfold render. simpl. rewrite L. unfold blank in H. rewrite H. reflexivity.
  - apply step_settle. unfold clicked.
    rewrite (makeRequest_begin_sends clock c H). reflexivity.
Qed.

(** X16.  Editing the form while a request is pending changes nothing of the
    outcome: an edit followed by the settlement leaves the cells that the
    settlement followed by the same edit leaves. *)
Theorem an_edit_commutes_with_the_settlement (clock : nat -> Q) (startTime : Q)
  (outcome : Settlement) (c : Component) (u m b h : jsstring) (p : bool) :
  settled clock startTime outcome (setDraft u m b h p c)
  = setDraft u m b h p (settled clock startTime outcome c).
Proof.
  unfold settled. destruct outcome as [res|err].
  - unfold makeRequest_settle, tryFinally, tryCatch, bind, await, ret,
      responseData, res_json, res_text, performance_now, emit, update, toast,
      start.
    simpl.
    destruct (declaresJSON res); simpl;
      destruct (Response.body res) as [text|]; simpl;
      try destruct (JSON_parse text); simpl;
      try destruct (JSON_parse []); simpl;
      reflexivity.
  - rewrite !makeRequest_settle_rejects. reflexivity.
Qed.

End Platform.

(* ================================================================== *)
(** * The scenarios, run *)

Abbreviation run :=
  (makeRequest Browser.Number_toString Browser.JSON_parse
     Browser.syntax_error_message Browser.body_used_message).
Abbreviation view := (render Browser.Number_toString).
Abbreviation click := (clicked Browser.JSON_parse).
Abbreviation settle :=
  (settled Browser.Number_toString Browser.JSON_parse
     Browser.syntax_error_message Browser.body_used_message).
Abbreviation reached :=
  (reachable Browser.Number_toString Browser.JSON_parse
     Browser.syntax_error_message Browser.body_used_message).
Abbreviation pretty := (formatJson Browser.Number_toString).

Abbreviation after_ok :=
  (settle Scenario.later (Scenario.clock O) (Resolves Scenario.ok_response)
     (click Scenario.clock Scenario.get_ok)).
Abbreviation pending_again := (click Scenario.clock after_ok).
Abbreviation after_failure :=
  (settle Scenario.later (Scenario.clock O) (Rejects Scenario.failed_to_fetch)
     pending_again).
Abbreviation cors_text :=
  (js "CORS Error: Failed to fetch. Try enabling CORS proxy or configure the server to allow cross-origin requests.").

(** ** C1 *)




(** ** C2 *)

Lemma blank_url_blocks_submission_witness :
  whitespace_only (url Scenario.blank_url) = true /\
  hooks (snd (run Scenario.clock (Scenario.answers (Resolves Scenario.ok_response))
                (start Scenario.blank_url))) = Scenario.blank_url.
Proof.
  split; [reflexivity|].
  apply (blank_url_blocks_submission Browser.Number_toString Browser.JSON_parse
           Browser.syntax_error_message Browser.body_used_message Scenario.clock
           (Scenario.answers (Resolves Scenario.ok_response)) Scenario.blank_url).
  reflexivity.
Defined.

(** ** C3 *)

(** C3 as stated fails.  A request that fails stores its message and nothing
    else: no elapsed time is kept in any cell, and no timing badge is shown.
    And the start of the interval is not the call of the transport: the
    request is logged twice between the first reading of the clock and the
    call. *)
Lemma failed_request_stores_no_elapsed_time :
  error (hooks (snd (run Scenario.clock (Scenario.answers (Rejects Scenario.failed_to_fetch))
                       (start Scenario.get_ok)))) = Some cors_text /\
  response (hooks (snd (run Scenario.clock (Scenario.answers (Rejects Scenario.failed_to_fetch))
                          (start Scenario.get_ok)))) = None /\
  badges (view (hooks (snd (run Scenario.clock
                              (Scenario.answers (Rejects Scenario.failed_to_fetch))
                              (start Scenario.get_ok))))) = None /\
  firstn 4 (events (snd (run Scenario.clock
                           (Scenario.answers (Rejects Scenario.failed_to_fetch))
                           (start Scenario.get_ok))))
    = [PerformanceNow (Scenario.clock O);
       ConsoleLogUrl (js "https://example.test/ok");
       ConsoleLogOptions (requestOptions Browser.JSON_parse Scenario.get_ok);
       Fetch (js "https://example.test/ok")
         (requestOptions Browser.JSON_parse Scenario.get_ok)].
Proof. repeat split; reflexivity. Qed.

(** 1012.6 - 1000 is stored as 13. *)
Lemma ok_request_takes_13ms :
  option_map ApiResponse.timing
    (response (hooks (snd (run Scenario.clock (Scenario.answers (Resolves Scenario.ok_response))
                             (start Scenario.get_ok))))) = Some (Finite 13).
Proof. reflexivity. Qed.

(** The difference is the one of doubles.  The doubles nearest to 0.1 and to
    0.6 are 7205759403792794 / 2^56 and 5404319552844595 / 2^53; their
    difference as rationals is below one half, and as doubles it is one half,
    which rounds to 1. *)
Lemma the_difference_is_of_doubles :
  toDouble (1 # 10) = S754_finite false 7205759403792794 (-56) /\
  toDouble (6 # 10) = S754_finite false 5404319552844595 (-53) /\
  ((5404319552844595 # 2 ^ 53) - (7205759403792794 # 2 ^ 56) < 1 # 2)%Q /\
  SFsub 53 1024 (toDouble (6 # 10)) (toDouble (1 # 10))
    = S754_finite false (2 ^ 52) (-53) /\
  Math_round (Number_minus (6 # 10) (1 # 10)) = Finite 1 /\
  Math_round (Number_minus (5404319552844595 # 2 ^ 53) (7205759403792794 # 2 ^ 56))
    = Finite 1 /\
  Math_round (Number_minus (22036 # 10) (10031 # 10)) = Finite 1201 /\
  Math_round (Number_minus (1 # 10) (6 # 10)) = Finite 0.
Proof. repeat split; vm_compute; reflexivity. Qed.

(** Readings beyond the doubles, or far enough apart, give a difference that
    is not finite; it is stored and shown as it is. *)
Lemma a_difference_need_not_be_finite :
  toDouble (2 ^ 1023) = S754_finite false (2 ^ 52) 971 /\
  asDouble (2 ^ 1024) = Infinity false /\
  Math_round (Number_minus (2 ^ 1023) (- 2 ^ 1023)) = Infinity false /\
  Math_round (Number_minus (2 ^ 1024) (2 ^ 1024)) = NaN /\
  Number_toText Browser.Number_toString (Infinity false) = js "Infinity" /\
  Number_toText Browser.Number_toString NaN = js "NaN".
Proof. repeat split; vm_compute; reflexivity. Qed.

Lemma elapsed_time_of_a_run_witness :
  blank (url Scenario.get_ok) = false /\
  Number_le (asDouble (Scenario.clock O)) (asDouble (Scenario.clock 1%nat)) /\
  decoded Browser.JSON_parse Scenario.ok_response
    = Some (JObject [(js "a", JNumber (Finite 1))]) /\
  Number_minus (Scenario.clock 1%nat) (Scenario.clock O)
    = Finite (7093169413108544 # 562949953421312) /\
  response (hooks (snd (run Scenario.clock
                          (Scenario.answers (Resolves Scenario.ok_response))
                          (start Scenario.get_ok))))
    = Some {| ApiResponse.data := JObject [(js "a", JNumber (Finite 1))];
              ApiResponse.status := 200;
              ApiResponse.statusText := js "OK";
              ApiResponse.headers := [(js "content-type", js "application/json")];
              ApiResponse.timing := Finite 13 |} /\
  (exists ms : Z,
     Math_round (Number_minus (Scenario.clock 1%nat) (Scenario.clock O))
       = Finite (inject_Z ms) /\ 0 <= ms) /\
  error (hooks (snd (run Scenario.clock
                       (Scenario.answers (Rejects Scenario.failed_to_fetch))
                       (start Scenario.get_ok)))) = Some cors_text /\
  response (hooks (snd (run Scenario.clock
                          (Scenario.answers (Rejects Scenario.failed_to_fetch))
                          (start Scenario.get_ok)))) = None.
Proof.
  assert (H : blank (url Scenario.get_ok) = false) by reflexivity.
  assert (Mono : Number_le (asDouble (Scenario.clock O))
                   (asDouble (Scenario.clock 1%nat)))
    by (vm_compute; discriminate).
  assert (Fin : Number_minus (Scenario.clock 1%nat) (Scenario.clock O)
                = Finite (7093169413108544 # 562949953421312))
    by (vm_compute; reflexivity).
  pose proof (elapsed_time_of_a_run Browser.Number_toString Browser.JSON_parse
                Browser.syntax_error_message Browser.body_used_message
                Scenario.clock (Scenario.answers (Resolves Scenario.ok_response))
                Scenario.get_ok H) as Ok.
  pose proof (elapsed_time_of_a_run Browser.Number_toString Browser.JSON_parse
                Browser.syntax_error_message Browser.body_used_message
                Scenario.clock (Scenario.answers (Rejects Scenario.failed_to_fetch))
                Scenario.get_ok H) as Ko.
  cbv zeta in Ok, Ko.
  destruct Ok as (_ & Ok & _). destruct Ko as (_ & _ & Ko).
  destruct (Ok Scenario.ok_response (JObject [(js "a", JNumber (Finite 1))])
              eq_refl eq_refl) as (R & _ & Int).
  destruct (Int _ Fin) as (ms & Ems & _ & Pos).
  destruct (Ko Scenario.failed_to_fetch eq_refl) as (E & R').
  split; [exact H|]. split; [exact Mono|]. split; [reflexivity|].
  split; [exact Fin|]. split; [exact R|].
  split; [exists ms; split; [exact Ems|exact (Pos Mono)]|].
  split; [exact E|exact R'].
Defined.

(** ** C4 *)

(** C4 as stated fails.  The value [{"a":1}] is printed on three lines; that
    text, given to the formatter again, comes out on one line, in quotes,
    with its quotes and line breaks escaped. *)
Lemma formatJson_twice_differs :
  pretty (JObject [(js "a", JNumber (Finite 1))])
    = js "{" ++ LF ++ jsq "  'a': 1" ++ LF ++ js "}" /\
  pretty (JString (pretty (JObject [(js "a", JNumber (Finite 1))])))
    = jsq "'{\n  \'a\': 1\n}'" /\
  pretty (JString (pretty (JObject [(js "a", JNumber (Finite 1))])))
    <> pretty (JObject [(js "a", JNumber (Finite 1))]).
Proof. repeat split; try reflexivity. discriminate. Qed.

(** What does give the first text back is formatting the value decoded from
    it, as happens to a body served as JSON. *)
Lemma formatting_the_decoded_text :
  option_map pretty
    (Browser.JSON_parse (pretty (JObject [(js "a", JNumber (Finite 1))])))
    = Some (pretty (JObject [(js "a", JNumber (Finite 1))])).
Proof. reflexivity. Qed.

(** ** C5 *)

Lemma unparseable_headers_sent_empty_witness :
  blank (url Scenario.post_create) = false /\
  Browser.JSON_parse (headers Scenario.post_create) = None /\
  RequestInit.headers (requestOptions Browser.JSON_parse Scenario.post_create) = JObject [] /\
  RequestInit.body (requestOptions Browser.JSON_parse Scenario.post_create)
    = Some (jsq "{'x':1}").
Proof.
  pose proof (unparseable_headers_sent_empty Browser.Number_toString Browser.JSON_parse
                Browser.syntax_error_message Browser.body_used_message
                Scenario.clock (Scenario.answers (Resolves Scenario.created_response))
                Scenario.post_create eq_refl eq_refl) as T.
  cbv zeta in T. destruct T as (_ & Hh & _ & _ & Hb & _).
  split; [reflexivity|]. split; [reflexivity|]. split; [exact Hh|].
  apply Hb; [discriminate|discriminate|reflexivity].
Defined.

(** The request with the malformed headers text goes out and its answer, 201,
    is stored. *)
Lemma malformed_headers_request_completes :
  option_map ApiResponse.status
    (response (hooks (snd (run Scenario.clock
                             (Scenario.answers (Resolves Scenario.created_response))
                             (start Scenario.post_create))))) = Some 201 /\
  error (hooks (snd (run Scenario.clock
                       (Scenario.answers (Resolves Scenario.created_response))
                       (start Scenario.post_create)))) = None.
Proof. split; reflexivity. Qed.

(** ** C6 *)

Lemma request_body_rule_witness :
  blank (url Scenario.head_with_body) = false /\
  RequestInit.body (requestOptions Browser.JSON_parse Scenario.head_with_body) = None.
Proof.
  pose proof (request_body_rule Browser.JSON_parse Scenario.clock
                Scenario.head_with_body eq_refl) as T.
  cbv zeta in T. destruct T as (_ & _ & _ & Hd).
  split; [reflexivity|]. apply Hd. reflexivity.
Defined.

(** ** C7 *)

Lemma status_tiers_witness :
  200 <= 250 < 300 /\ getStatusColor 250 = success_tier.
Proof.
  assert (H : 200 <= 250 < 300) by lia.
  split; [exact H|]. exact (proj1 (status_tiers 250) H).
Defined.

(** ** C8 *)

(** An [Error] thrown with no message at all: its message is the empty
    text, which is stored as it is.  No generic text is put in its place and
    no banner is rendered. *)
Lemma messageless_error_gets_no_generic_text :
  error (settle Scenario.later (Scenario.clock O) (Rejects (ErrorInstance []))
           (click Scenario.clock Scenario.get_ok)) = Some [] /\
  error (settle Scenario.later (Scenario.clock O) (Rejects (ErrorInstance []))
           (click Scenario.clock Scenario.get_ok))
    <> Some (js "Unknown error occurred") /\
  errorBanner (view (settle Scenario.later (Scenario.clock O)
                       (Rejects (ErrorInstance []))
                       (click Scenario.clock Scenario.get_ok))) = None.
Proof. split; [reflexivity|]. split; [discriminate|reflexivity]. Qed.

Lemma cors_failure_message_witness :
  includes (js "Failed to fetch") (js "CORS")
    || includes (js "Failed to fetch") (js "fetch") = true /\
  errorBanner (view (settle Scenario.later (Scenario.clock O)
                       (Rejects Scenario.failed_to_fetch)
                       (click Scenario.clock Scenario.get_ok)))
    = Some (cors_text, true) /\
  error (settle Scenario.later (Scenario.clock O)
           (Rejects (ErrorInstance (js "Not Found")))
           (click Scenario.clock Scenario.get_ok))
    = Some (js "Not Found").
Proof.
  pose proof (cors_failure_message Browser.Number_toString Browser.JSON_parse
                Browser.syntax_error_message Browser.body_used_message
                Scenario.later (Scenario.clock O)
                (click Scenario.clock Scenario.get_ok)
                (js "Failed to fetch") eq_refl) as T.
  cbv zeta in T. destruct T as (_ & _ & _ & Hb & _ & _ & Hp & _).
  split; [reflexivity|]. split; [exact Hb|].
  apply (Hp (js "Not Found") eq_refl).
Defined.

(** ** C9 *)

(** The failing input of C9: HTML served as JSON.  The run ends with the
    platform's complaint about the second read as its error, and with no
    response stored. *)
Lemma undecodable_json_body_fails_witness :
  declaresJSON Scenario.html_as_json = true /\
  Browser.JSON_parse (js "<html>oops</html>") = None /\
  error (settle Scenario.later (Scenario.clock O) (Resolves Scenario.html_as_json)
           (click Scenario.clock Scenario.get_ok))
    = Some (js "Failed to execute 'text' on 'Response': body stream already read") /\
  response (settle Scenario.later (Scenario.clock O) (Resolves Scenario.html_as_json)
              (click Scenario.clock Scenario.get_ok)) = None.
Proof.
  pose proof (undecodable_json_body_fails Browser.Number_toString Browser.JSON_parse
                Browser.syntax_error_message Browser.body_used_message
                Scenario.later (Scenario.clock O)
                (click Scenario.clock Scenario.get_ok)
                Scenario.html_as_json (js "<html>oops</html>")
                eq_refl eq_refl eq_refl) as T.
  cbv zeta in T. destruct T as (He & Hr & _).
  split; [reflexivity|]. split; [reflexivity|].
  split; [exact He|exact Hr].
Defined.

(** ** C10 *)

Lemma parsed_headers_passed_through_witness :
  blank (url Scenario.array_headers) = false /\
  Browser.JSON_parse (headers Scenario.array_headers)
    = Some (JArray [JNumber (Finite 1); JNumber (Finite 2)]) /\
  RequestInit.headers (requestOptions Browser.JSON_parse Scenario.array_headers)
    = JArray [JNumber (Finite 1); JNumber (Finite 2)].
Proof.
  pose proof (parsed_headers_passed_through Browser.JSON_parse Scenario.clock
                Scenario.array_headers
                (JArray [JNumber (Finite 1); JNumber (Finite 2)])
                eq_refl eq_refl eq_refl) as T.
  cbv zeta in T. destruct T as (_ & Hh & _).
  split; [reflexivity|]. split; [reflexivity|]. exact Hh.
Defined.

(** ** The first scenario of the specification *)

(** GET, status 200, body [{"a":1}] declared as JSON: a green badge reading
    200 OK, and the body on three lines. *)
Lemma ok_request_is_rendered :
  badges (view after_ok)
    = Some (js "bg-green-500 text-white", js "200 OK", js "13ms") /\
  panels (view after_ok)
    = [Succeeded (js "{" ++ LF ++ jsq "  'a': 1" ++ LF ++ js "}")].
Proof. split; reflexivity. Qed.

(* ================================================================== *)
(** * The further properties, on the scenarios *)

Abbreviation pending_first := (click Scenario.clock Scenario.get_ok).
Abbreviation stepping :=
  (step Browser.Number_toString Browser.JSON_parse Browser.syntax_error_message
     Browser.body_used_message).
Abbreviation happened :=
  (history Browser.Number_toString Browser.JSON_parse Browser.syntax_error_message
     Browser.body_used_message).

Lemma collected_headers_of_distinct_names_witness :
  NoDup (map fst Answers.two_headers) /\
  collectHeaders Answers.two_headers = Answers.two_headers.
Proof.
  assert (N : NoDup (map fst Answers.two_headers)).
  { repeat constructor; simpl; intuition discriminate. }
  split; [exact N|].
  apply (collected_headers_of_distinct_names Answers.two_headers N).
  repeat constructor.
Defined.

(** Names that are array indices are listed first and by their value, not in
    the order they came; a name that is no canonical index (a leading zero,
    a sign) stays where it came. *)
Lemma index_names_are_listed_first :
  collectHeaders [(js "x-a", js "1"); (js "9", js "2"); (js "10", js "3");
                  (js "07", js "4"); (js "0", js "5")]
    = [(js "0", js "5"); (js "9", js "2"); (js "10", js "3");
       (js "x-a", js "1"); (js "07", js "4")] /\
  collectHeaders [(js "10", js "a"); (js "9", js "b")]
    = [(js "9", js "b"); (js "10", js "a")] /\
  arrayIndex (js "4294967294") = Some 4294967294%N /\
  arrayIndex (js "4294967295") = None.
Proof. repeat split; reflexivity. Qed.

(** The name [__proto__] makes no property; a name that comes again keeps its
    place and takes the later value. *)
Lemma a_proto_name_is_dropped :
  collectHeaders [(js "a", js "1"); (js "__proto__", js "2"); (js "b", js "3");
                  (js "a", js "4")]
    = [(js "a", js "4"); (js "b", js "3")].
Proof. reflexivity. Qed.

(** Also the run that fails on the body it cannot decode ends settled. *)
Lemma every_run_ends_settled_witness :
  blank (url Scenario.get_ok) = false /\
  loading (hooks (snd (run Scenario.clock
                         (Scenario.answers (Resolves Scenario.html_as_json))
                         (start Scenario.get_ok)))) = false /\
  List.length (filter isToast
                 (events (snd (run Scenario.clock
                                 (Scenario.answers (Resolves Scenario.html_as_json))
                                 (start Scenario.get_ok))))) = 1%nat.
Proof.
  pose proof (every_run_ends_settled Browser.Number_toString Browser.JSON_parse
                Browser.syntax_error_message Browser.body_used_message
                Scenario.clock (Scenario.answers (Resolves Scenario.html_as_json))
                Scenario.get_ok eq_refl) as T.
  cbv zeta in T. destruct T as (_ & L & _ & N & _).
  split; [reflexivity|]. split; [exact L|exact N].
Defined.

Lemma hidden_body_input_sends_no_body_witness :
  bodyInputShown (view Scenario.head_with_body) = false /\
  RequestInit.body (requestOptions Browser.JSON_parse Scenario.head_with_body) = None.
Proof.
  split; [reflexivity|].
  exact (hidden_body_input_sends_no_body Browser.Number_toString
           Browser.JSON_parse Scenario.head_with_body eq_refl).
Defined.

Lemma proxy_changes_only_the_url_witness :
  blank (url Scenario.get_ok) = false /\
  sent (events (snd (makeRequest_begin Browser.JSON_parse Scenario.clock
                       (start (setDraft (url Scenario.get_ok) (method Scenario.get_ok)
                                 (requestBody Scenario.get_ok)
                                 (headers Scenario.get_ok) true Scenario.get_ok)))))
    = [(js "https://cors-anywhere.herokuapp.com/https://example.test/ok",
        requestOptions Browser.JSON_parse Scenario.get_ok)].
Proof.
  pose proof (proxy_changes_only_the_url Browser.JSON_parse Scenario.clock
                Scenario.get_ok eq_refl) as T.
  cbv zeta in T. destruct T as (On & _).
  split; [reflexivity|exact On].
Defined.

Lemma a_stored_response_is_never_cleared_witness :
  stepping after_ok pending_again /\
  option_map ApiResponse.status (response after_ok) = Some 200 /\
  headerIcon (view pending_again) = CheckCircle.
Proof.
  assert (S : stepping after_ok pending_again) by (apply step_click; reflexivity).
  assert (R : response after_ok <> None) by discriminate.
  split; [exact S|]. split; [reflexivity|].
  exact (proj2 (a_stored_response_is_never_cleared Browser.Number_toString
                  Browser.JSON_parse Browser.syntax_error_message
                  Browser.body_used_message after_ok pending_again S R)).
Defined.

Lemma any_status_is_shown_as_a_response_witness :
  declaresJSON Answers.not_found = false /\
  error pending_first = None /\
  badges (view (hooks (snd (makeRequest_settle Browser.Number_toString
                              Browser.JSON_parse
                              Browser.syntax_error_message Browser.body_used_message
                              Scenario.later (Scenario.clock O)
                              (Resolves Answers.not_found) (start pending_first)))))
    = Some (js "bg-yellow-500 text-white", js "404 Not Found", js "13ms").
Proof.
  pose proof (any_status_is_shown_as_a_response Browser.Number_toString
                Browser.JSON_parse Browser.syntax_error_message
                Browser.body_used_message Scenario.later (Scenario.clock O)
                pending_first Answers.not_found eq_refl eq_refl) as T.
  cbv zeta in T. destruct T as (_ & _ & Bd & _).
  split; [reflexivity|]. split; [reflexivity|]. exact Bd.
Defined.

Lemma a_text_body_is_shown_on_one_line_witness :
  declaresJSON Answers.two_lines = false /\
  error pending_first = None /\
  panels (view (settle Scenario.later (Scenario.clock O) (Resolves Answers.two_lines)
                  pending_first))
    = [Succeeded (jsq "'first\nsecond'")].
Proof.
  pose proof (a_text_body_is_shown_on_one_line Browser.Number_toString
                Browser.JSON_parse Browser.syntax_error_message
                Browser.body_used_message Scenario.later (Scenario.clock O)
                pending_first Answers.two_lines eq_refl eq_refl) as T.
  destruct T as (P & _).
  split; [reflexivity|]. split; [reflexivity|]. exact P.
Defined.

Lemma the_checklist_follows_the_heuristic_witness :
  truthy Answers.network_down = true /\
  errorBanner (view (settle Scenario.later (Scenario.clock O)
                       (Rejects (ErrorInstance Answers.network_down)) pending_first))
    = Some (Answers.network_down, false).
Proof.
  pose proof (the_checklist_follows_the_heuristic Browser.Number_toString
                Browser.JSON_parse Browser.syntax_error_message
                Browser.body_used_message Scenario.later (Scenario.clock O)
                pending_first Answers.network_down eq_refl) as T.
  destruct T as (Bn & _).
  split; [reflexivity|]. exact Bn.
Defined.

Lemma a_bodiless_json_response_falls_back_witness :
  declaresJSON Answers.no_content = true /\
  Browser.JSON_parse [] = None /\
  option_map ApiResponse.data
    (response (settle Scenario.later (Scenario.clock O) (Resolves Answers.no_content)
                 pending_first)) = Some (JString []).
Proof.
  pose proof (a_bodiless_json_response_falls_back Browser.Number_toString Browser.JSON_parse
                Browser.syntax_error_message Browser.body_used_message
                Scenario.later (Scenario.clock O) pending_first Answers.no_content
                eq_refl eq_refl eq_refl) as T.
  cbv zeta in T. destruct T as (R & _).
  split; [reflexivity|]. split; [reflexivity|].
  unfold settled. rewrite R. reflexivity.
Defined.

Lemma one_request_in_flight_witness :
  happened [Clicked; Settled; Clicked; Edited] pending_again /\
  inFlight [Clicked; Settled; Clicked; Edited] = 1.
Proof.
  assert (H : happened [Clicked; Settled; Clicked; Edited] pending_again).
  { apply history_click; [|reflexivity].
    apply history_settle; [|reflexivity].
    apply history_click; [|reflexivity].
    apply history_edit. apply history_initial. }
  split; [exact H|].
  exact (proj1 (one_request_in_flight Browser.Number_toString Browser.JSON_parse
                  Browser.syntax_error_message Browser.body_used_message
                  _ _ H)).
Defined.

Lemma a_run_is_a_click_then_the_settlement_witness :
  blank (url Scenario.get_ok) = false /\
  reached (hooks (snd (run Scenario.clock
                         (Scenario.answers (Resolves Answers.not_found))
                         (start Scenario.get_ok)))).
Proof.
  assert (R : reached Scenario.get_ok).
  { apply reach_step with (c := initial); [apply reach_initial|apply step_edit]. }
  split; [reflexivity|].
  exact (proj2 (a_run_is_a_click_then_the_settlement Browser.Number_toString
                  Browser.JSON_parse Browser.syntax_error_message
                  Browser.body_used_message Scenario.clock
                  (Scenario.answers (Resolves Answers.not_found))
                  Scenario.get_ok eq_refl) R eq_refl).
Defined.

Lemma enabled_button_sends_one_request_witness :
  sendDisabled (view Scenario.get_ok) = false /\
  loading (click Scenario.clock Scenario.get_ok) = true /\
  sendDisabled (view (click Scenario.clock Scenario.get_ok)) = true.
Proof.
  assert (D : sendDisabled (view Scenario.get_ok) = false) by reflexivity.
  split; [exact D|].
  exact (proj2 (proj2 (enabled_button_sends_one_request Browser.Number_toString
                         Browser.JSON_parse Scenario.clock Scenario.get_ok) D)).
Defined.

